(** * blatann GATT client: characteristics, services and the database

    A shallow embedding of [blatann/gatt/gattc.py] (with the UUID constants of
    [blatann/bt_sig/uuids.py] that it uses), and the properties of the
    subscription state machine, the notification dispatch, the property gates
    and the UUID lookups.

    Python objects become records, a method becomes a computation in a small
    state/exception/trace monad over the characteristic: the trace lists, in
    program order, every call the method makes to a collaborator (attribute
    I/O, the driver, an event source, a registered handler). *)

From Stdlib Require Import NArith List Bool Ascii String Lia.
From Stdlib Require Import Sorted Permutation.
From Stdlib.Strings Require Import Byte.
Import ListNotations.

Set Implicit Arguments.

(** ** blatann.uuid *)

Module uuid.

(** Modelled from the spec: [blatann/uuid.py] (classes [Uuid], [Uuid16],
    [Uuid128]) is missing.  A UUID is a 16-bit or a
    128-bit identifier carrying a description; it is compared through its
    normalized 128-bit numeric value. *)
Inductive Uuid : Type :=
| Uuid16 (value : N) (description : string)
| Uuid128 (value : N) (description : string).

Definition description (u : Uuid) : string :=
  match u with Uuid16 _ d | Uuid128 _ d => d end.

(** Modelled from the spec: the Bluetooth base UUID
    00000000-0000-1000-8000-00805F9B34FB. *)
Definition bluetooth_base : N := 0x0000000000001000800000805F9B34FB.

(** Modelled from the spec: the Bluetooth-base expansion of a 16-bit value
    puts it in bits 96..111 of the base UUID. *)
Definition base_expansion (x : N) : N := N.lor bluetooth_base (N.shiftl x 96).

(** Modelled from the spec: the normalized numeric value of a UUID. *)
Definition normalized (u : Uuid) : N :=
  match u with
  | Uuid16 x _ => base_expansion x
  | Uuid128 v _ => v
  end.

(** Modelled from the spec: [Uuid.__eq__], equality of normalized values. *)
Definition eqb (a b : Uuid) : bool := N.eqb (normalized a) (normalized b).

(** Modelled from the spec: the 128-bit UUID a 16-bit one expands to. *)
Definition to_uuid128 (u : Uuid) : Uuid :=
  Uuid128 (normalized u) (description u).

End uuid.

Definition Uuid : Type := uuid.Uuid.
Definition Uuid16 : N -> string -> Uuid := uuid.Uuid16.
Definition Uuid128 : N -> string -> Uuid := uuid.Uuid128.

(** ** blatann.bt_sig.uuids: declaration and descriptor UUIDs

    [Uuid16("2803", "Characteristic Declaration")] is written
    [Uuid16 0x2803 "Characteristic Declaration"]; a constant given no
    description has the empty one. *)

Module DeclarationUuid.
Definition primary_service : Uuid := Uuid16 0x2800 "".
Definition secondary_service : Uuid := Uuid16 0x2801 "".
Definition characteristic : Uuid := Uuid16 0x2803 "Characteristic Declaration".
End DeclarationUuid.

Module DescriptorUuid.
Definition extended_properties : Uuid := Uuid16 0x2900 "".
Definition user_description : Uuid := Uuid16 0x2901 "".
Definition cccd : Uuid :=
  Uuid16 0x2902 "Client Characteristic Configuration Descriptor".
Definition sccd : Uuid :=
  Uuid16 0x2903 "Server Characteristic Configuration Descriptor".
Definition presentation_format : Uuid := Uuid16 0x2904 "".
Definition aggregate_format : Uuid := Uuid16 0x2905 "".
Definition valid_range : Uuid := Uuid16 0x2906 "".
Definition external_report_reference : Uuid := Uuid16 0x2907 "".
Definition report_reference : Uuid := Uuid16 0x2908 "".
Definition number_of_digitals : Uuid := Uuid16 0x2909 "".
Definition value_trigger_setting : Uuid := Uuid16 0x290a "".
Definition es_configuration : Uuid := Uuid16 0x290b "".
Definition es_measurement : Uuid := Uuid16 0x290c "".
Definition es_trigger_setting : Uuid := Uuid16 0x290d "".
Definition time_trigger_setting : Uuid := Uuid16 0x290e "".
End DescriptorUuid.

(** Of the service and characteristic tables, the entries the examples use. *)
Module ServiceUuid.
Definition battery_service : Uuid := Uuid16 0x180f "".
End ServiceUuid.

Module CharacteristicUuid.
Definition battery_level : Uuid := Uuid16 0x2a19 "".
Definition user_control_point : Uuid := Uuid16 0x2a9f "".
End CharacteristicUuid.

(** ** blatann.bt_sig.uuids: the loop run when the module is loaded *)

Module bt_sig.

(** [blatann.utils.snake_case_to_capitalized_words], which is missing, read
    by its name: the non-empty parts between underscores, each
    with its first letter in upper case, joined by single spaces. *)
Definition upper (c : Ascii.ascii) : Ascii.ascii :=
  let n := Ascii.N_of_ascii c in
  if ((97 <=? n) && (n <=? 122))%N then Ascii.ascii_of_N (n - 32) else c.

Fixpoint capitalized_words (s : string) (word_start emitted : bool) : string :=
  match s with
  | EmptyString => EmptyString
  | String c rest =>
      if Ascii.eqb c "_"%char then capitalized_words rest true emitted
      else if word_start
      then (if emitted then String " "%char else fun r => r)
             (String (upper c) (capitalized_words rest false true))
      else String c (capitalized_words rest false true)
  end.

Definition snake_case_to_capitalized_words (s : string) : string :=
  capitalized_words s true false.

(** [v.description = ...]: assignment to a field of an existing Uuid. *)
Definition set_description (v : Uuid) (d : string) : Uuid :=
  match v with
  | uuid.Uuid16 x _ => uuid.Uuid16 x d
  | uuid.Uuid128 x _ => uuid.Uuid128 x d
  end.

(** The Uuid entries of a class [__dict__], in definition order. *)
Definition DeclarationUuid_dict : list (string * Uuid) :=
  [ ("primary_service", DeclarationUuid.primary_service);
    ("secondary_service", DeclarationUuid.secondary_service);
    ("characteristic", DeclarationUuid.characteristic) ]%string.

Definition DescriptorUuid_dict : list (string * Uuid) :=
  [ ("extended_properties", DescriptorUuid.extended_properties);
    ("user_description", DescriptorUuid.user_description);
    ("cccd", DescriptorUuid.cccd);
    ("sccd", DescriptorUuid.sccd);
    ("presentation_format", DescriptorUuid.presentation_format);
    ("aggregate_format", DescriptorUuid.aggregate_format);
    ("valid_range", DescriptorUuid.valid_range);
    ("external_report_reference", DescriptorUuid.external_report_reference);
    ("report_reference", DescriptorUuid.report_reference);
    ("number_of_digitals", DescriptorUuid.number_of_digitals);
    ("value_trigger_setting", DescriptorUuid.value_trigger_setting);
    ("es_configuration", DescriptorUuid.es_configuration);
    ("es_measurement", DescriptorUuid.es_measurement);
    ("es_trigger_setting", DescriptorUuid.es_trigger_setting);
    ("time_trigger_setting", DescriptorUuid.time_trigger_setting) ]%string.

(** The body of the inner loop for one entry [k, v]: a Uuid without a
    description is given one made from the name it is bound to.  [words]
    stands for [snake_case_to_capitalized_words]. *)
Definition described (words : string -> string) (kv : string * Uuid) : Uuid :=
  let '(k, v) := kv in
  if String.eqb (uuid.description v) "" then set_description v (words k) else v.

(** A class namespace after the loop has gone over it. *)
Definition loaded (words : string -> string) (ns : list (string * Uuid))
  : list (string * Uuid) :=
  map (fun kv => (fst kv, described words kv)) ns.

(** [UUID_DESCRIPTION_MAP] entries the loop adds for one class. *)
Definition description_entries (words : string -> string)
    (ns : list (string * Uuid)) : list (Uuid * string) :=
  map (fun kv => (described words kv, uuid.description (described words kv))) ns.

End bt_sig.

(** ** blatann.gatt (base definitions used by the client) *)

Module gatt.

(** [gatt.SubscriptionState]: the three values a CCCD can hold. *)
Inductive SubscriptionState : Type := NOT_SUBSCRIBED | NOTIFY | INDICATION.

Definition SubscriptionState_eqb (a b : SubscriptionState) : bool :=
  match a, b with
  | NOT_SUBSCRIBED, NOT_SUBSCRIBED | NOTIFY, NOTIFY
  | INDICATION, INDICATION => true
  | _, _ => false
  end.

(** Modelled from the spec: [SubscriptionState.to_buffer] lives in
    [blatann/gatt/__init__.py], which is missing; the CCCD is a 2-byte
    attribute and NOTIFY is written as [0x01, 0x00], INDICATION as
    [0x02, 0x00]. *)
Definition to_buffer (value : SubscriptionState) : list byte :=
  match value with
  | NOT_SUBSCRIBED => [x00; x00]
  | NOTIFY => [x01; x00]
  | INDICATION => [x02; x00]
  end.

(** Modelled from the spec: [SubscriptionState.from_buffer], the state a
    written CCCD value stands for; [None] when the buffer is none of the
    three encodings (the Python call raises there). *)
Definition from_buffer (buf : list byte) : option SubscriptionState :=
  match buf with
  | [x00; x00] => Some NOT_SUBSCRIBED
  | [x01; x00] => Some NOTIFY
  | [x02; x00] => Some INDICATION
  | _ => None
  end.

(** [gatt.CharacteristicProperties]: capability flags fixed at discovery. *)
Module CharacteristicProperties.
Record t : Type := Build {
  read : bool;
  write : bool;
  notify : bool;
  indicate : bool;
  broadcast : bool;
  write_no_response : bool;
  signed_write : bool
}.
End CharacteristicProperties.

Inductive ServiceType : Type := PRIMARY | SECONDARY.

End gatt.

Import gatt.

(** ** blatann.nrf types that cross the boundary *)

Module nrf_types.
(** [BLEGattStatusCode]: [success], or an ATT/GATT error code. *)
Inductive BLEGattStatusCode : Type :=
| success
| failure (code : N).

Definition is_success (s : BLEGattStatusCode) : bool :=
  match s with success => true | failure _ => false end.
End nrf_types.

Module nrf_events.
Inductive BLEGattHVXType : Type := notification | indication.

(** [GattcEvtHvx]: an unsolicited value change received from the peer. *)
Record GattcEvtHvx : Type := Build_GattcEvtHvx {
  conn_handle : N;
  attr_handle : N;
  hvx_type : BLEGattHVXType;
  data : list byte
}.
End nrf_events.

(** ** Exceptions, collaborator calls and the method monad *)

Inductive Exception : Type :=
| InvalidOperationException
| AttributeError   (* attribute access on None *)
| ValueError       (* SubscriptionState.from_buffer on a foreign buffer *)
| UnicodeEncodeError   (* str.encode: a character the encoding lacks *)
| LookupError.         (* str.encode: no encoding of that name *)

(** What [str.encode(encoding)] can fail with. *)
Inductive CodecError : Type := unicode_encode_error | lookup_error.

Definition codec_exception (e : CodecError) : Exception :=
  match e with
  | unicode_encode_error => UnicodeEncodeError
  | lookup_error => LookupError
  end.

(** The codec an encoding name denotes: [s.encode(encoding)] gives bytes or
    fails.  A [string] stands for the utf8 octets of the Python [str]. *)
Definition Codec : Type := string -> CodecError + list byte.

(** The utf8 codec: the octets themselves. *)
Definition utf8_codec : Codec := fun s => inr (list_byte_of_string s).

(** The ascii codec: the octets when all are below 128, an error otherwise. *)
Definition ascii_codec : Codec :=
  fun s =>
    if forallb (fun b => (Byte.to_N b <? 128)%N) (list_byte_of_string s)
    then inr (list_byte_of_string s)
    else inl unicode_encode_error.

(** A registered callback is an opaque callable; it is known by its identity. *)
Definition Handler : Type := nat.

(** The event sources a characteristic owns. *)
Inductive EventName : Type :=
| OnNotification | OnReadComplete | OnWriteComplete | OnCccdWriteComplete.

(** Event arguments ([blatann.event_args]). *)
Record WriteCompleteEventArgs : Type := Build_WriteCompleteEventArgs {
  wc_id : nat;
  wc_value : list byte;
  wc_status : nrf_types.BLEGattStatusCode;
  wc_reason : N
}.

Record ReadCompleteEventArgs : Type := Build_ReadCompleteEventArgs {
  rc_id : nat;
  rc_value : list byte;
  rc_status : nrf_types.BLEGattStatusCode;
  rc_reason : N
}.

Record SubscriptionWriteCompleteEventArgs : Type :=
  Build_SubscriptionWriteCompleteEventArgs {
  swc_id : nat;
  swc_value : SubscriptionState;
  swc_status : nrf_types.BLEGattStatusCode;
  swc_reason : N
}.

Record NotificationReceivedEventArgs : Type :=
  Build_NotificationReceivedEventArgs {
  nr_value : list byte;
  nr_is_indication : bool
}.

(** One call made to a collaborator object. *)
Inductive Call : Type :=
| register_handler (h : Handler)
    (* _on_notification_event.register(h) *)
| clear_handlers
    (* _on_notification_event.clear_handlers() *)
| attr_write (handle : N) (data : list byte) (with_response : option bool)
    (* GattcAttribute.write(data[, with_response]); None: argument omitted *)
| attr_read (handle : N)
    (* GattcAttribute.read() *)
| ble_gattc_hv_confirm (conn_handle attr_handle : N)
    (* ble_driver.ble_gattc_hv_confirm(conn_handle, attr_handle) *)
| notification_handler (h : Handler) (args : NotificationReceivedEventArgs)
    (* h(self, NotificationReceivedEventArgs(value, is_indication)) *)
| read_complete_notify (args : ReadCompleteEventArgs)
| write_complete_notify (args : WriteCompleteEventArgs)
| cccd_write_complete_notify (args : SubscriptionWriteCompleteEventArgs).

(** [IdBasedEventWaitable(event, id)]. *)
Record IdBasedEventWaitable : Type := Build_IdBasedEventWaitable {
  waitable_event : EventName;
  waitable_id : nat
}.

Inductive Result (A : Type) : Type :=
| Return (a : A)
| Raise (e : Exception).
Arguments Raise {A} e.

Section MethodMonad.
Variable St : Type.

(** A method body: from the object's state to its state afterwards, the
    calls made, and the value returned or the exception raised. *)
Definition M (A : Type) : Type := St -> St * list Call * Result A.

Definition ret {A} (a : A) : M A := fun s => (s, [], Return a).

Definition bind {A B} (m : M A) (k : A -> M B) : M B :=
  fun s =>
    match m s with
    | (s1, t1, Return a) =>
        match k a s1 with
        | (s2, t2, r) => (s2, t1 ++ t2, r)
        end
    | (s1, t1, Raise e) => (s1, t1, Raise e)
    end.

Definition raise {A} (e : Exception) : M A := fun s => (s, [], Raise e).
Definition returned {A} (r : Result A) : M A := fun s => (s, [], r).
Definition get : M St := fun s => (s, [], Return s).
Definition modify (f : St -> St) : M unit := fun s => (f s, [], Return tt).
Definition call (c : Call) : M unit := fun s => (s, [c], Return tt).

Fixpoint for_each {X} (xs : list X) (body : X -> M unit) : M unit :=
  match xs with
  | [] => ret tt
  | x :: rest => bind (body x) (fun _ => for_each rest body)
  end.
End MethodMonad.

Arguments ret {St A} a.
Arguments raise {St A} e.
Arguments returned {St A} r.
Arguments get {St}.
Arguments modify {St} f.
Arguments call {St} c.

Declare Scope method_scope.
Delimit Scope method_scope with method.
Notation "x <- m ;; k" := (bind m (fun x => k))
  (at level 61, m at next level, right associativity) : method_scope.
Notation "m ;; k" := (bind m (fun _ => k))
  (at level 61, right associativity) : method_scope.

Definition final_state {St A} (o : St * list Call * Result A) : St := fst (fst o).
Definition trace {St A} (o : St * list Call * Result A) : list Call := snd (fst o).
Definition result {St A} (o : St * list Call * Result A) : Result A := snd o.

(** ** blatann.gatt.gattc_attribute (the part the characteristic relies on) *)

Module GattcAttribute.
(** An attribute of the remote database.  [string_encoding] is the codec
    the encoding name denotes ([str.encode] under that encoding). *)
Record t : Type := Build {
  uuid : Uuid;
  handle : N;
  value : list byte;
  string_encoding : Codec
}.

(** Modelled from the spec: [GattcAttribute.update] ("applies an
    externally-observed value"); the class is in
    [blatann/gatt/gattc_attribute.py], which is missing. *)
Definition update (a : t) (v : list byte) : t :=
  Build (uuid a) (handle a) v (string_encoding a).

Definition set_string_encoding (a : t) (enc : Codec) : t :=
  Build (uuid a) (handle a) (value a) enc.

(** [GattcAttribute(uuid, handle, manager, initial_value)]; the default
    encoding is utf8, a [string] standing for its utf8 octets. *)
Definition new (u : Uuid) (h : N) (initial_value : list byte) : t :=
  Build u h initial_value utf8_codec.
End GattcAttribute.

(** ** blatann.event_type.EventSource, for the notification event *)

Module EventSource.
(** Modelled from the spec: [blatann/event_type.py] is missing.  An event
    source is the ordered list of its registered callbacks; [register]
    appends, [clear_handlers] empties it, and [notify] invokes the callbacks
    synchronously in registration order. *)
Definition t : Type := list Handler.

Definition register (src : t) (h : Handler) : t := src ++ [h].
Definition cleared : t := [].
End EventSource.

(** What a caller passes as [data] to a write: a [str] or a bytes-like. *)
Inductive PyData : Type :=
| PyStr (s : string)
| PyBytes (b : list byte).

(** ** GattcCharacteristic *)

Module GattcCharacteristic.
Import gatt.CharacteristicProperties.

(** The fields of the object.  [_attributes] is the tuple built once by
    [__init__] and never reassigned; the cached value is read and written
    through [_value_attr] only. *)
Record t : Type := Build {
  uuid : Uuid;
  _properties : gatt.CharacteristicProperties.t;
  peer_conn_handle : N;                   (* self.peer.conn_handle *)
  cccd_state : SubscriptionState;         (* gatt.Characteristic.cccd_state *)
  _decl_attr : GattcAttribute.t;
  _value_attr : GattcAttribute.t;
  _cccd_attr : option GattcAttribute.t;   (* None when there is no CCCD *)
  _attributes : list GattcAttribute.t;
  _on_notification_event : EventSource.t;
  issued : nat    (* requests handed to the attributes so far: the next id *)
}.

Definition set_cccd_state (v : SubscriptionState) (c : t) : t :=
  Build (uuid c) (_properties c) (peer_conn_handle c) v (_decl_attr c)
        (_value_attr c) (_cccd_attr c) (_attributes c)
        (_on_notification_event c) (issued c).

Definition set_value_attr (a : GattcAttribute.t) (c : t) : t :=
  Build (uuid c) (_properties c) (peer_conn_handle c) (cccd_state c)
        (_decl_attr c) a (_cccd_attr c) (_attributes c)
        (_on_notification_event c) (issued c).

Definition set_on_notification_event (e : EventSource.t) (c : t) : t :=
  Build (uuid c) (_properties c) (peer_conn_handle c) (cccd_state c)
        (_decl_attr c) (_value_attr c) (_cccd_attr c) (_attributes c)
        e (issued c).

Definition set_issued (n : nat) (c : t) : t :=
  Build (uuid c) (_properties c) (peer_conn_handle c) (cccd_state c)
        (_decl_attr c) (_value_attr c) (_cccd_attr c) (_attributes c)
        (_on_notification_event c) n.

(** [sorted(attributes, key=lambda d: d.handle)]: a stable sort. *)
Fixpoint insert_by_handle (a : GattcAttribute.t) (l : list GattcAttribute.t)
  : list GattcAttribute.t :=
  match l with
  | [] => [a]
  | b :: rest =>
      if (GattcAttribute.handle a <=? GattcAttribute.handle b)%N
      then a :: b :: rest
      else b :: insert_by_handle a rest
  end.

Definition sorted_by_handle (l : list GattcAttribute.t) : list GattcAttribute.t :=
  fold_right insert_by_handle [] l.

(** [__init__]: a new characteristic is not subscribed and has no handler. *)
Definition init (conn : N) (u : Uuid) (properties : gatt.CharacteristicProperties.t)
    (decl_attr value_attr : GattcAttribute.t)
    (cccd_attr : option GattcAttribute.t)
    (attributes : list GattcAttribute.t) : t :=
  Build u properties conn NOT_SUBSCRIBED decl_attr value_attr cccd_attr
        (sorted_by_handle attributes) [] 0.

(** *** Properties *)

Definition value (c : t) : list byte := GattcAttribute.value (_value_attr c).
Definition readable (c : t) : bool := read (_properties c).
Definition writable (c : t) : bool := write (_properties c).
Definition writable_without_response (c : t) : bool :=
  write_no_response (_properties c).
Definition subscribable (c : t) : bool :=
  notify (_properties c) || indicate (_properties c).
Definition subscribed (c : t) : bool :=
  negb (SubscriptionState_eqb (cccd_state c) NOT_SUBSCRIBED).

(** *** Calls on the collaborators *)

Local Open Scope method_scope.

(** [attr.write(data[, with_response])] on an attribute reference that may
    be None; the waitable it returns carries a fresh request id. *)
Definition attribute_write (a : option GattcAttribute.t) (data : list byte)
    (with_response : option bool) : M t nat :=
  match a with
  | None => raise AttributeError
  | Some attr =>
      call (attr_write (GattcAttribute.handle attr) data with_response) ;;
      c <- get ;;
      modify (set_issued (S (issued c))) ;;
      ret (issued c)
  end.

Definition attribute_read (attr : GattcAttribute.t) : M t nat :=
  call (attr_read (GattcAttribute.handle attr)) ;;
  c <- get ;;
  modify (set_issued (S (issued c))) ;;
  ret (issued c).

Definition on_notification_register (h : Handler) : M t unit :=
  call (register_handler h) ;;
  modify (fun c => set_on_notification_event
                     (EventSource.register (_on_notification_event c) h) c).

Definition on_notification_clear_handlers : M t unit :=
  call clear_handlers ;;
  modify (set_on_notification_event EventSource.cleared).

Definition on_notification_notify (args : NotificationReceivedEventArgs)
  : M t unit :=
  c <- get ;;
  for_each (_on_notification_event c)
           (fun h => call (notification_handler h args)).

(** [data.encode(self.string_encoding)] for a [str], then [bytes(data)]:
    the bytes to write, or the exception the encoding raises. *)
Definition to_bytes (c : t) (data : PyData) : Result (list byte) :=
  match data with
  | PyStr s =>
      match GattcAttribute.string_encoding (_value_attr c) s with
      | inr b => Return b
      | inl e => Raise (codec_exception e)
      end
  | PyBytes b => Return b
  end.

(** The [string_encoding] property and its setter: both go to the value
    attribute. *)
Definition string_encoding (c : t) : Codec :=
  GattcAttribute.string_encoding (_value_attr c).

Definition string_encoding_setter (encoding : Codec) : M t unit :=
  modify (fun c => set_value_attr
            (GattcAttribute.set_string_encoding (_value_attr c) encoding) c).

(** *** Public methods *)

Definition subscribe (on_notification_handler : Handler)
    (prefer_indications : bool) : M t IdBasedEventWaitable :=
  c <- get ;;
  (if negb (subscribable c) then raise InvalidOperationException else ret tt) ;;
  let value :=
    if prefer_indications && indicate (_properties c)
       || negb (notify (_properties c))
    then INDICATION else NOTIFY in
  on_notification_register on_notification_handler ;;
  id <- attribute_write (_cccd_attr c) (to_buffer value) None ;;
  ret (Build_IdBasedEventWaitable OnCccdWriteComplete id).

Definition unsubscribe : M t IdBasedEventWaitable :=
  c <- get ;;
  (if negb (subscribable c) then raise InvalidOperationException else ret tt) ;;
  let value := NOT_SUBSCRIBED in
  id <- attribute_write (_cccd_attr c) (to_buffer value) None ;;
  on_notification_clear_handlers ;;
  ret (Build_IdBasedEventWaitable OnCccdWriteComplete id).

Definition read : M t IdBasedEventWaitable :=
  c <- get ;;
  (if negb (readable c) then raise InvalidOperationException else ret tt) ;;
  id <- attribute_read (_value_attr c) ;;
  ret (Build_IdBasedEventWaitable OnReadComplete id).

Definition write (data : PyData) : M t IdBasedEventWaitable :=
  c <- get ;;
  (if negb (writable c) then raise InvalidOperationException else ret tt) ;;
  b <- returned (to_bytes c data) ;;
  id <- attribute_write (Some (_value_attr c)) b (Some true) ;;
  ret (Build_IdBasedEventWaitable OnWriteComplete id).

Definition write_without_response (data : PyData) : M t IdBasedEventWaitable :=
  c <- get ;;
  (if negb (writable_without_response c)
   then raise InvalidOperationException else ret tt) ;;
  b <- returned (to_bytes c data) ;;
  id <- attribute_write (Some (_value_attr c)) b (Some false) ;;
  ret (Build_IdBasedEventWaitable OnWriteComplete id).

(** [find_descriptor]: the loop over [_attributes]; falling off its end
    returns None. *)
Fixpoint find_descriptor_loop (attrs : list GattcAttribute.t) (u : Uuid)
  : option GattcAttribute.t :=
  match attrs with
  | [] => None
  | attr :: rest =>
      if uuid.eqb (GattcAttribute.uuid attr) u then Some attr
      else find_descriptor_loop rest u
  end.

Definition find_descriptor (c : t) (u : Uuid) : option GattcAttribute.t :=
  find_descriptor_loop (_attributes c) u.

(** *** Event handlers *)

Definition _read_complete (event_args : ReadCompleteEventArgs) : M t unit :=
  call (read_complete_notify event_args).

Definition _write_complete (event_args : WriteCompleteEventArgs) : M t unit :=
  call (write_complete_notify event_args).

Definition _cccd_write_complete (event_args : WriteCompleteEventArgs)
  : M t unit :=
  (if nrf_types.is_success (wc_status event_args)
   then match from_buffer (wc_value event_args) with
        | Some v => modify (set_cccd_state v)
        | None => raise ValueError
        end
   else ret tt) ;;
  c <- get ;;
  let args := Build_SubscriptionWriteCompleteEventArgs
                (wc_id event_args) (cccd_state c)
                (wc_status event_args) (wc_reason event_args) in
  call (cccd_write_complete_notify args).

Definition _on_indication_notification (event : nrf_events.GattcEvtHvx)
  : M t unit :=
  c <- get ;;
  if negb (nrf_events.conn_handle event =? peer_conn_handle c)%N
     || negb (nrf_events.attr_handle event
              =? GattcAttribute.handle (_value_attr c))%N
  then ret tt
  else
    is_indication <-
      match nrf_events.hvx_type event with
      | nrf_events.indication =>
          call (ble_gattc_hv_confirm (nrf_events.conn_handle event)
                                     (nrf_events.attr_handle event)) ;;
          ret true
      | nrf_events.notification => ret false
      end ;;
    modify (fun c => set_value_attr
              (GattcAttribute.update (_value_attr c) (nrf_events.data event)) c) ;;
    c' <- get ;;
    on_notification_notify
      (Build_NotificationReceivedEventArgs (value c') is_indication).

(** *** Factory *)

(** [nrf_types.BLEGattDescriptor] and [nrf_types.BLEGattCharacteristic] as
    discovery hands them over; UUIDs and properties are taken as already
    converted ([uuid_manager.nrf_uuid_to_uuid], [from_nrf_properties]). *)
Record BLEGattDescriptor : Type := Build_BLEGattDescriptor {
  desc_uuid : Uuid;
  desc_handle : N
}.

Record BLEGattCharacteristic : Type := Build_BLEGattCharacteristic {
  nrf_uuid : Uuid;
  char_props : gatt.CharacteristicProperties.t;
  descs : list BLEGattDescriptor;
  handle_decl : N;
  handle_value : N;
  data_decl : list byte;
  data_value : list byte
}.

(** The locals of the loop over [nrf_characteristic.descs]. *)
Record Found : Type := Build_Found {
  decl_attr : option GattcAttribute.t;
  value_attr : option GattcAttribute.t;
  cccd_attr : option GattcAttribute.t;
  attributes : list GattcAttribute.t
}.

Definition classify (char_uuid : Uuid) (acc : Found) (nrf_desc : BLEGattDescriptor)
  : Found :=
  let d_uuid := desc_uuid nrf_desc in
  let d_attr := GattcAttribute.new d_uuid (desc_handle nrf_desc) [] in
  let attrs := attributes acc ++ [d_attr] in
  if uuid.eqb d_uuid DeclarationUuid.characteristic
  then Build_Found (Some d_attr) (value_attr acc) (cccd_attr acc) attrs
  else if uuid.eqb d_uuid char_uuid
  then Build_Found (decl_attr acc) (Some d_attr) (cccd_attr acc) attrs
  else if uuid.eqb d_uuid DescriptorUuid.cccd
  then Build_Found (decl_attr acc) (value_attr acc) (Some d_attr) attrs
  else Build_Found (decl_attr acc) (value_attr acc) (cccd_attr acc) attrs.

Definition from_discovered_characteristic (conn : N)
    (nrf_characteristic : BLEGattCharacteristic) : t :=
  let char_uuid := nrf_uuid nrf_characteristic in
  let properties := char_props nrf_characteristic in
  let f := fold_left (classify char_uuid) (descs nrf_characteristic)
                     (Build_Found None None None []) in
  let '(decl, attrs1) :=
    match decl_attr f with
    | Some a => (a, attributes f)
    | None =>
        let a := GattcAttribute.new DeclarationUuid.characteristic
                   (handle_decl nrf_characteristic)
                   (data_decl nrf_characteristic) in
        (a, attributes f ++ [a])
    end in
  let '(val, attrs2) :=
    match value_attr f with
    | Some a => (a, attrs1)
    | None =>
        let a := GattcAttribute.new char_uuid
                   (handle_value nrf_characteristic)
                   (data_value nrf_characteristic) in
        (a, attrs1 ++ [a])
    end in
  init conn char_uuid properties decl val (cccd_attr f) attrs2.

End GattcCharacteristic.

(** ** GattcService *)

Module GattcService.
Record t : Type := Build {
  uuid : Uuid;
  service_type : ServiceType;
  start_handle : N;
  end_handle : N;
  characteristics : list GattcCharacteristic.t
}.

Fixpoint find_characteristic_loop (cs : list GattcCharacteristic.t)
    (characteristic_uuid : Uuid) : option GattcCharacteristic.t :=
  match cs with
  | [] => None
  | c :: rest =>
      if uuid.eqb (GattcCharacteristic.uuid c) characteristic_uuid then Some c
      else find_characteristic_loop rest characteristic_uuid
  end.

Definition find_characteristic (s : t) (characteristic_uuid : Uuid)
  : option GattcCharacteristic.t :=
  find_characteristic_loop (characteristics s) characteristic_uuid.

Record BLEGattService : Type := Build_BLEGattService {
  nrf_uuid : Uuid;
  nrf_start_handle : N;
  nrf_end_handle : N;
  chars : list GattcCharacteristic.BLEGattCharacteristic
}.

Definition from_discovered_service (conn : N) (nrf_service : BLEGattService) : t :=
  Build (nrf_uuid nrf_service) PRIMARY
        (nrf_start_handle nrf_service) (nrf_end_handle nrf_service)
        (map (GattcCharacteristic.from_discovered_characteristic conn)
             (chars nrf_service)).
End GattcService.

(** ** GattcDatabase *)

Module GattcDatabase.
Record t : Type := Build {
  peer_conn_handle : N;
  services : list GattcService.t
}.

Fixpoint find_service_loop (ss : list GattcService.t) (service_uuid : Uuid)
  : option GattcService.t :=
  match ss with
  | [] => None
  | s :: rest =>
      if uuid.eqb (GattcService.uuid s) service_uuid then Some s
      else find_service_loop rest service_uuid
  end.

Definition find_service (db : t) (service_uuid : Uuid) : option GattcService.t :=
  find_service_loop (services db) service_uuid.

(** The generator: every characteristic of every service, in order. *)
Definition iter_characteristics (db : t) : list GattcCharacteristic.t :=
  flat_map GattcService.characteristics (services db).

Definition find_characteristic (db : t) (characteristic_uuid : Uuid)
  : option GattcCharacteristic.t :=
  GattcService.find_characteristic_loop (iter_characteristics db)
                                        characteristic_uuid.

Definition add_discovered_services (db : t)
    (nrf_services : list GattcService.BLEGattService) : t :=
  Build (peer_conn_handle db)
        (services db
         ++ map (GattcService.from_discovered_service (peer_conn_handle db))
                nrf_services).
End GattcDatabase.

(** ** What happens to a characteristic over time *)

(** A caller's method call or an event delivered by the dispatch loop. *)
Inductive Stimulus : Type :=
| do_subscribe (h : Handler) (prefer_indications : bool)
| do_unsubscribe
| do_read
| do_write (data : PyData)
| do_write_without_response (data : PyData)
| on_hvx (event : nrf_events.GattcEvtHvx)
| on_cccd_write_complete (args : WriteCompleteEventArgs)
| on_read_complete (args : ReadCompleteEventArgs)
| on_write_complete (args : WriteCompleteEventArgs).

Definition forget {St A} (o : St * list Call * Result A) : St * list Call :=
  (final_state o, trace o).

(** The state after one stimulus and the calls it caused; an exception ends
    that method only, the object stays as the method left it. *)
Definition step (c : GattcCharacteristic.t) (s : Stimulus)
  : GattcCharacteristic.t * list Call :=
  match s with
  | do_subscribe h p => forget (GattcCharacteristic.subscribe h p c)
  | do_unsubscribe => forget (GattcCharacteristic.unsubscribe c)
  | do_read => forget (GattcCharacteristic.read c)
  | do_write d => forget (GattcCharacteristic.write d c)
  | do_write_without_response d =>
      forget (GattcCharacteristic.write_without_response d c)
  | on_hvx e => forget (GattcCharacteristic._on_indication_notification e c)
  | on_cccd_write_complete a =>
      forget (GattcCharacteristic._cccd_write_complete a c)
  | on_read_complete a => forget (GattcCharacteristic._read_complete a c)
  | on_write_complete a => forget (GattcCharacteristic._write_complete a c)
  end.

Fixpoint run (c : GattcCharacteristic.t) (ss : list Stimulus)
  : GattcCharacteristic.t * list Call :=
  match ss with
  | [] => (c, [])
  | s :: rest =>
      let '(c1, t1) := step c s in
      let '(c2, t2) := run c1 rest in
      (c2, t1 ++ t2)
  end.

(** The handlers a trace invoked, in order. *)
Fixpoint invoked (t : list Call) : list Handler :=
  match t with
  | [] => []
  | notification_handler h _ :: rest => h :: invoked rest
  | _ :: rest => invoked rest
  end.

(** ** Example data: the battery service of the scenarios *)

Module Examples.
Import gatt.CharacteristicProperties.

Definition no_properties : gatt.CharacteristicProperties.t :=
  Build false false false false false false false.

Definition read_notify : gatt.CharacteristicProperties.t :=
  Build true false true false false false false.

Definition indicate_only : gatt.CharacteristicProperties.t :=
  Build false false false true false false false.

Definition conn : N := 0.

(** Battery level, properties {read, notify}, handles decl=10, value=11,
    cccd=12. *)
Definition nrf_battery_level : GattcCharacteristic.BLEGattCharacteristic :=
  GattcCharacteristic.Build_BLEGattCharacteristic
    CharacteristicUuid.battery_level read_notify
    [ GattcCharacteristic.Build_BLEGattDescriptor DeclarationUuid.characteristic 10;
      GattcCharacteristic.Build_BLEGattDescriptor CharacteristicUuid.battery_level 11;
      GattcCharacteristic.Build_BLEGattDescriptor DescriptorUuid.cccd 12 ]
    10 11 [] [].

Definition battery_level : GattcCharacteristic.t :=
  GattcCharacteristic.from_discovered_characteristic conn nrf_battery_level.

(** The same characteristic as a peer without a CCCD descriptor declares it. *)
Definition nrf_battery_level_no_cccd : GattcCharacteristic.BLEGattCharacteristic :=
  GattcCharacteristic.Build_BLEGattCharacteristic
    CharacteristicUuid.battery_level read_notify
    [ GattcCharacteristic.Build_BLEGattDescriptor DeclarationUuid.characteristic 10;
      GattcCharacteristic.Build_BLEGattDescriptor CharacteristicUuid.battery_level 11 ]
    10 11 [] [].

Definition battery_level_no_cccd : GattcCharacteristic.t :=
  GattcCharacteristic.from_discovered_characteristic conn nrf_battery_level_no_cccd.

(** A characteristic that declares no capability at all. *)
Definition nrf_mute : GattcCharacteristic.BLEGattCharacteristic :=
  GattcCharacteristic.Build_BLEGattCharacteristic
    CharacteristicUuid.battery_level no_properties [] 20 21 [] [].

Definition mute : GattcCharacteristic.t :=
  GattcCharacteristic.from_discovered_characteristic conn nrf_mute.

(** A characteristic that can be written, with and without response, set to
    encode strings as ascii. *)
Definition write_both : gatt.CharacteristicProperties.t :=
  Build false true false false false true false.

Definition nrf_control_point : GattcCharacteristic.BLEGattCharacteristic :=
  GattcCharacteristic.Build_BLEGattCharacteristic
    CharacteristicUuid.user_control_point write_both
    [ GattcCharacteristic.Build_BLEGattDescriptor DeclarationUuid.characteristic 30;
      GattcCharacteristic.Build_BLEGattDescriptor
        CharacteristicUuid.user_control_point 31 ]
    30 31 [] [].

Definition control_point : GattcCharacteristic.t :=
  GattcCharacteristic.from_discovered_characteristic conn nrf_control_point.

Definition control_point_ascii : GattcCharacteristic.t :=
  final_state (GattcCharacteristic.string_encoding_setter ascii_codec control_point).

(** The one-letter string e-acute, by its utf8 octets 0xC3 0xA9. *)
Definition e_acute : string :=
  String (Ascii.ascii_of_N 195) (String (Ascii.ascii_of_N 169) EmptyString).

Definition nrf_battery_service : GattcService.BLEGattService :=
  GattcService.Build_BLEGattService ServiceUuid.battery_service 9 12
    [nrf_battery_level].

Definition database : GattcDatabase.t :=
  GattcDatabase.add_discovered_services (GattcDatabase.Build conn [])
                                        [nrf_battery_service].

Definition handler : Handler := 7.

(** The CCCD attribute discovery creates for handle 12. *)
Definition cccd_attribute : GattcAttribute.t :=
  GattcAttribute.new DescriptorUuid.cccd 12 [].

Definition hvx (attr : N) (kind : nrf_events.BLEGattHVXType) (d : list byte)
  : nrf_events.GattcEvtHvx :=
  nrf_events.Build_GattcEvtHvx conn attr kind d.
End Examples.

(** ** Vocabulary of the statements *)

(** [r] is the outcome of scanning [l] for the first element [hit] accepts:
    that element, with only rejected elements before it, or None when every
    element is rejected. *)
Definition first_match {X : Type} (hit : X -> bool) (l : list X) (r : option X)
  : Prop :=
  match r with
  | Some x => exists before after,
      l = before ++ x :: after /\ hit x = true
      /\ Forall (fun y => hit y = false) before
  | None => Forall (fun y => hit y = false) l
  end.

(** The event is for this characteristic: its connection handle is the
    peer's and its attribute handle is the value attribute's. *)
Definition addressed_to (c : GattcCharacteristic.t) (e : nrf_events.GattcEvtHvx)
  : bool :=
  (nrf_events.conn_handle e =? GattcCharacteristic.peer_conn_handle c)%N
  && (nrf_events.attr_handle e
      =? GattcAttribute.handle (GattcCharacteristic._value_attr c))%N.

Definition is_indication (e : nrf_events.GattcEvtHvx) : bool :=
  match nrf_events.hvx_type e with
  | nrf_events.indication => true
  | nrf_events.notification => false
  end.

Definition is_subscribe (s : Stimulus) : bool :=
  match s with do_subscribe _ _ => true | _ => false end.

Definition is_unsubscribe (s : Stimulus) : bool :=
  match s with do_unsubscribe => true | _ => false end.

(** The confirmations a trace sent, in order. *)
Fixpoint confirmed (t : list Call) : list (N * N) :=
  match t with
  | [] => []
  | ble_gattc_hv_confirm ch ah :: rest => (ch, ah) :: confirmed rest
  | _ :: rest => confirmed rest
  end.

(** The attribute writes a trace issued, in order. *)
Fixpoint writes (t : list Call) : list (N * list byte * option bool) :=
  match t with
  | [] => []
  | attr_write h d w :: rest => (h, d, w) :: writes rest
  | _ :: rest => writes rest
  end.

(** What no method and no event handler of a characteristic ever assigns. *)
Definition same_identity (c c' : GattcCharacteristic.t) : Prop :=
  GattcCharacteristic.uuid c' = GattcCharacteristic.uuid c
  /\ GattcCharacteristic._properties c' = GattcCharacteristic._properties c
  /\ GattcCharacteristic.peer_conn_handle c' = GattcCharacteristic.peer_conn_handle c
  /\ GattcCharacteristic._cccd_attr c' = GattcCharacteristic._cccd_attr c
  /\ GattcAttribute.handle (GattcCharacteristic._value_attr c')
     = GattcAttribute.handle (GattcCharacteristic._value_attr c)
  /\ GattcCharacteristic._attributes c' = GattcCharacteristic._attributes c.

(** The attribute the discovery loop creates for a descriptor. *)
Definition attribute_of (d : GattcCharacteristic.BLEGattDescriptor)
  : GattcAttribute.t :=
  GattcAttribute.new (GattcCharacteristic.desc_uuid d)
                     (GattcCharacteristic.desc_handle d) [].

(** Which branch of the discovery loop a descriptor takes. *)
Definition is_declaration (d : GattcCharacteristic.BLEGattDescriptor) : bool :=
  uuid.eqb (GattcCharacteristic.desc_uuid d) DeclarationUuid.characteristic.

Definition is_value (char_uuid : Uuid) (d : GattcCharacteristic.BLEGattDescriptor)
  : bool :=
  negb (is_declaration d) && uuid.eqb (GattcCharacteristic.desc_uuid d) char_uuid.

Definition is_cccd (char_uuid : Uuid) (d : GattcCharacteristic.BLEGattDescriptor)
  : bool :=
  negb (is_declaration d)
  && negb (uuid.eqb (GattcCharacteristic.desc_uuid d) char_uuid)
  && uuid.eqb (GattcCharacteristic.desc_uuid d) DescriptorUuid.cccd.

(** The last element of [l] that [hit] accepts. *)
Definition last_match {X : Type} (hit : X -> bool) (l : list X) : option X :=
  find hit (rev l).

(** The first result some element of [l] gives. *)
Fixpoint first_some {X Y : Type} (f : X -> option Y) (l : list X) : option Y :=
  match l with
  | [] => None
  | x :: rest =>
      match f x with
      | Some y => Some y
      | None => first_some f rest
      end
  end.

(** Handles in ascending order. *)
Definition handle_le (a b : GattcAttribute.t) : Prop :=
  (GattcAttribute.handle a <= GattcAttribute.handle b)%N.

(** The confirmations a sequence of stimuli calls for: one for every
    indication addressed to the characteristic, in order of arrival. *)
Definition confirmations_due (c : GattcCharacteristic.t) (ss : list Stimulus)
  : list (N * N) :=
  flat_map (fun s =>
              match s with
              | on_hvx e =>
                  if addressed_to c e && is_indication e
                  then [(nrf_events.conn_handle e, nrf_events.attr_handle e)]
                  else []
              | _ => []
              end) ss.

(** What holds of every characteristic of a database on connection [conn]
    that nobody has subscribed to yet. *)
Definition pristine (conn : N) (c : GattcCharacteristic.t) : Prop :=
  GattcCharacteristic.peer_conn_handle c = conn
  /\ GattcCharacteristic.cccd_state c = NOT_SUBSCRIBED
  /\ GattcCharacteristic._on_notification_event c = [].

(** * Properties *)

(** ** UUID equality *)

Section UuidFacts.
Local Open Scope N_scope.

Lemma bluetooth_base_low_bits (n : N) :
  96 <= n -> N.testbit uuid.bluetooth_base n = false.
Proof.
  intros Hn. apply N.bits_above_log2.
  assert (Hlog : N.log2 uuid.bluetooth_base = 76) by (vm_compute; reflexivity).
  rewrite Hlog. lia.
Qed.

Lemma base_and_shifted_disjoint (x : N) :
  N.land uuid.bluetooth_base (N.shiftl x 96) = 0.
Proof.
  apply N.bits_inj; intro n.
  rewrite N.land_spec, N.bits_0.
  destruct (N.lt_ge_cases n 96) as [Hlt | Hge].
  - rewrite (N.shiftl_spec_low x 96 n Hlt). apply andb_false_r.
  - rewrite (bluetooth_base_low_bits Hge). reflexivity.
Qed.

(** The expansion is the base UUID plus the 16-bit value moved up 96 bits. *)
Lemma base_expansion_arith (x : N) :
  uuid.base_expansion x = uuid.bluetooth_base + x * 2 ^ 96.
Proof.
  unfold uuid.base_expansion.
  rewrite <- (N.shiftl_mul_pow2 x 96).
  rewrite <- N.lxor_lor by apply base_and_shifted_disjoint.
  symmetry. apply N.add_nocarry_lxor, base_and_shifted_disjoint.
Qed.

Lemma base_expansion_128_bits (x : N) :
  x < 2 ^ 16 -> uuid.base_expansion x < 2 ^ 128.
Proof.
  intros Hx. rewrite base_expansion_arith.
  assert (Hb : uuid.bluetooth_base < 2 ^ 96) by (vm_compute; reflexivity).
  assert (Hm : x * 2 ^ 96 <= (2 ^ 16 - 1) * 2 ^ 96)
    by (apply N.mul_le_mono_r; lia).
  assert (Hs : 2 ^ 96 + (2 ^ 16 - 1) * 2 ^ 96 <= 2 ^ 128)
    by (vm_compute; discriminate).
  lia.
Qed.

Lemma base_expansion_inj (x y : N) :
  uuid.base_expansion x = uuid.base_expansion y -> x = y.
Proof.
  rewrite !base_expansion_arith. intros H.
  apply N.add_cancel_l in H.
  apply N.mul_cancel_r in H; [exact H | vm_compute; discriminate].
Qed.

Lemma uuid_eqb_refl (u : Uuid) : uuid.eqb u u = true.
Proof. apply N.eqb_refl. Qed.

Lemma uuid_eqb_sym (u v : Uuid) : uuid.eqb u v = uuid.eqb v u.
Proof. apply N.eqb_sym. Qed.

Lemma uuid_eqb_trans (u v w : Uuid) :
  uuid.eqb u v = true -> uuid.eqb v w = true -> uuid.eqb u w = true.
Proof.
  unfold uuid.eqb. rewrite !N.eqb_eq. congruence.
Qed.

(** Two 16-bit UUIDs are equal only when their values are. *)
Lemma uuid16_eqb_values (x y : N) (d e : string) :
  uuid.eqb (uuid.Uuid16 x d) (uuid.Uuid16 y e) = true <-> x = y.
Proof.
  unfold uuid.eqb; cbn [uuid.normalized]. rewrite N.eqb_eq. split.
  - apply base_expansion_inj.
  - congruence.
Qed.

Lemma set_description_normalized (v : Uuid) (d : string) :
  uuid.normalized (bt_sig.set_description v d) = uuid.normalized v.
Proof. destruct v; reflexivity. Qed.

Lemma described_normalized (words : string -> string) (k : string) (v : Uuid) :
  uuid.normalized (bt_sig.described words (k, v)) = uuid.normalized v.
Proof.
  unfold bt_sig.described.
  destruct (String.eqb (uuid.description v) ""); [apply set_description_normalized | reflexivity].
Qed.
End UuidFacts.

(** ** Lookups are first-match scans *)

Section Scans.
Variable X : Type.
Variable hit : X -> bool.


Lemma first_match_unique (l : list X) (r1 r2 : option X) :
  first_match hit l r1 -> first_match hit l r2 -> r1 = r2.
Proof.
  revert r1 r2. induction l as [| a l IH]; intros r1 r2 H1 H2.
  - destruct r1 as [x |], r2 as [y |]; trivial;
      [ destruct H1 as ([| ? ?] & ? & E & _); discriminate E
      | destruct H1 as ([| ? ?] & ? & E & _); discriminate E
      | destruct H2 as ([| ? ?] & ? & E & _); discriminate E ].
  - destruct (hit a) eqn:Ha.
    + assert (Hsome : forall r, first_match hit (a :: l) r -> r = Some a).
      { intros [x |] H; cbn [first_match] in H.
        - destruct H as ([| b before] & after & E & Hx & Hb).
          + injection E as <- _. reflexivity.
          + injection E as <- _. inversion Hb; congruence.
        - inversion H; congruence. }
      rewrite (Hsome _ H1), (Hsome _ H2). reflexivity.
    + assert (Htail : forall r, first_match hit (a :: l) r -> first_match hit l r).
      { intros [x |] H; cbn [first_match] in *.
        - destruct H as ([| b before] & after & E & Hx & Hb).
          + injection E as <- _. congruence.
          + injection E as _ ->. inversion Hb; subst. eauto.
        - inversion H; assumption. }
      apply IH; auto.
Qed.
End Scans.

Lemma find_descriptor_loop_find (attrs : list GattcAttribute.t) (u : Uuid) :
  GattcCharacteristic.find_descriptor_loop attrs u
  = find (fun a => uuid.eqb (GattcAttribute.uuid a) u) attrs.
Proof.
  induction attrs as [| a l IH]; cbn; [reflexivity |].
  destruct (uuid.eqb (GattcAttribute.uuid a) u); [reflexivity | exact IH].
Qed.

Lemma find_characteristic_loop_find (cs : list GattcCharacteristic.t) (u : Uuid) :
  GattcService.find_characteristic_loop cs u
  = find (fun c => uuid.eqb (GattcCharacteristic.uuid c) u) cs.
Proof.
  induction cs as [| c l IH]; cbn; [reflexivity |].
  destruct (uuid.eqb (GattcCharacteristic.uuid c) u); [reflexivity | exact IH].
Qed.

Lemma find_service_loop_find (ss : list GattcService.t) (u : Uuid) :
  GattcDatabase.find_service_loop ss u
  = find (fun s => uuid.eqb (GattcService.uuid s) u) ss.
Proof.
  induction ss as [| s l IH]; cbn; [reflexivity |].
  destruct (uuid.eqb (GattcService.uuid s) u); [reflexivity | exact IH].
Qed.


(** ** Running a method: what each one amounts to *)

Lemma for_each_calls {St X : Type} (xs : list X) (f : X -> Call) (s : St) :
  for_each xs (fun x => call (f x)) s = (s, map f xs, Return tt).
Proof.
  induction xs as [| x xs IH]; cbn [for_each map]; [reflexivity |].
  unfold bind at 1. cbn [call]. rewrite IH. reflexivity.
Qed.

Section MethodEquations.
Import GattcCharacteristic.

Lemma on_notification_notify_eq (args : NotificationReceivedEventArgs)
    (c : GattcCharacteristic.t) :
  on_notification_notify args c
  = (c, map (fun h => notification_handler h args) (_on_notification_event c),
     Return tt).
Proof.
  unfold on_notification_notify, bind, get.
  rewrite (for_each_calls (_on_notification_event c)
             (fun h => notification_handler h args) c).
  reflexivity.
Qed.

Variable c : GattcCharacteristic.t.

Lemma subscribe_eq (h : Handler) (p : bool) :
  subscribe h p c =
  if subscribable c then
    let v := if p && CharacteristicProperties.indicate (_properties c)
                || negb (CharacteristicProperties.notify (_properties c))
             then INDICATION else NOTIFY in
    let c1 := set_on_notification_event (_on_notification_event c ++ [h]) c in
    match _cccd_attr c with
    | Some a =>
        (set_issued (S (issued c)) c1,
         [register_handler h;
          attr_write (GattcAttribute.handle a) (to_buffer v) None],
         Return (Build_IdBasedEventWaitable OnCccdWriteComplete (issued c)))
    | None => (c1, [register_handler h], Raise AttributeError)
    end
  else (c, [], Raise InvalidOperationException).
Proof.
  unfold subscribe, on_notification_register, attribute_write, bind, get,
    modify, call, ret, raise, EventSource.register.
  destruct (subscribable c); cbn [negb]; [| reflexivity].
  destruct (_cccd_attr c); reflexivity.
Qed.

Lemma unsubscribe_eq :
  unsubscribe c =
  if subscribable c then
    match _cccd_attr c with
    | Some a =>
        (set_on_notification_event [] (set_issued (S (issued c)) c),
         [attr_write (GattcAttribute.handle a) (to_buffer NOT_SUBSCRIBED) None;
          clear_handlers],
         Return (Build_IdBasedEventWaitable OnCccdWriteComplete (issued c)))
    | None => (c, [], Raise AttributeError)
    end
  else (c, [], Raise InvalidOperationException).
Proof.
  unfold unsubscribe, on_notification_clear_handlers, attribute_write, bind,
    get, modify, call, ret, raise, EventSource.cleared.
  destruct (subscribable c); cbn [negb]; [| reflexivity].
  destruct (_cccd_attr c); reflexivity.
Qed.

Lemma read_eq :
  read c =
  if readable c then
    (set_issued (S (issued c)) c,
     [attr_read (GattcAttribute.handle (_value_attr c))],
     Return (Build_IdBasedEventWaitable OnReadComplete (issued c)))
  else (c, [], Raise InvalidOperationException).
Proof.
  unfold read, attribute_read, bind, get, modify, call, ret, raise.
  destruct (readable c); reflexivity.
Qed.

Lemma write_eq (data : PyData) :
  write data c =
  if writable c then
    match to_bytes c data with
    | Return b =>
        (set_issued (S (issued c)) c,
         [attr_write (GattcAttribute.handle (_value_attr c)) b (Some true)],
         Return (Build_IdBasedEventWaitable OnWriteComplete (issued c)))
    | Raise e => (c, [], Raise e)
    end
  else (c, [], Raise InvalidOperationException).
Proof.
  unfold write, attribute_write, bind, get, modify, call, ret, raise, returned.
  destruct (writable c); [| reflexivity].
  destruct (to_bytes c data); reflexivity.
Qed.

Lemma write_without_response_eq (data : PyData) :
  write_without_response data c =
  if writable_without_response c then
    match to_bytes c data with
    | Return b =>
        (set_issued (S (issued c)) c,
         [attr_write (GattcAttribute.handle (_value_attr c)) b (Some false)],
         Return (Build_IdBasedEventWaitable OnWriteComplete (issued c)))
    | Raise e => (c, [], Raise e)
    end
  else (c, [], Raise InvalidOperationException).
Proof.
  unfold write_without_response, attribute_write, bind, get, modify, call,
    ret, raise, returned.
  destruct (writable_without_response c); [| reflexivity].
  destruct (to_bytes c data); reflexivity.
Qed.

Lemma cccd_write_complete_eq (a : WriteCompleteEventArgs) :
  _cccd_write_complete a c =
  if nrf_types.is_success (wc_status a) then
    match from_buffer (wc_value a) with
    | Some v =>
        (set_cccd_state v c,
         [cccd_write_complete_notify
            (Build_SubscriptionWriteCompleteEventArgs
               (wc_id a) v (wc_status a) (wc_reason a))],
         Return tt)
    | None => (c, [], Raise ValueError)
    end
  else
    (c,
     [cccd_write_complete_notify
        (Build_SubscriptionWriteCompleteEventArgs
           (wc_id a) (cccd_state c) (wc_status a) (wc_reason a))],
     Return tt).
Proof.
  unfold _cccd_write_complete, bind, get, modify, call, ret, raise.
  destruct (nrf_types.is_success (wc_status a)); [| reflexivity].
  destruct (from_buffer (wc_value a)); reflexivity.
Qed.

Lemma on_indication_notification_eq (e : nrf_events.GattcEvtHvx) :
  _on_indication_notification e c =
  if addressed_to c e then
    let args := Build_NotificationReceivedEventArgs (nrf_events.data e)
                                                    (is_indication e) in
    (set_value_attr (GattcAttribute.update (_value_attr c) (nrf_events.data e)) c,
     (if is_indication e
      then [ble_gattc_hv_confirm (nrf_events.conn_handle e)
                                 (nrf_events.attr_handle e)]
      else [])
     ++ map (fun h => notification_handler h args) (_on_notification_event c),
     Return tt)
  else (c, [], Return tt).
Proof.
  unfold _on_indication_notification, addressed_to, is_indication.
  unfold bind at 1. cbn [get].
  rewrite <- negb_andb.
  destruct (_ && _); cbn [negb]; [| reflexivity].
  destruct (nrf_events.hvx_type e);
    unfold bind, get, modify, call, ret;
    rewrite on_notification_notify_eq; reflexivity.
Qed.
End MethodEquations.

(** ** One stimulus at a time *)

Section StepFacts.
Import GattcCharacteristic.

Lemma same_identity_refl (c : GattcCharacteristic.t) : same_identity c c.
Proof. repeat split. Qed.

Lemma same_identity_trans (c1 c2 c3 : GattcCharacteristic.t) :
  same_identity c1 c2 -> same_identity c2 c3 -> same_identity c1 c3.
Proof.
  unfold same_identity. intuition congruence.
Qed.

Ltac by_cases_of_step :=
  repeat match goal with
         | |- context [if ?b then _ else _] => destruct b
         | |- context [match ?o with Some _ => _ | None => _ end] => destruct o
         | |- context [match ?r with Return _ => _ | Raise _ => _ end] => destruct r
         end.

Lemma step_equation (c : GattcCharacteristic.t) (s : Stimulus) :
  step c s =
  match s with
  | do_subscribe h p => forget (subscribe h p c)
  | do_unsubscribe => forget (unsubscribe c)
  | do_read => forget (read c)
  | do_write d => forget (write d c)
  | do_write_without_response d => forget (write_without_response d c)
  | on_hvx e => forget (_on_indication_notification e c)
  | on_cccd_write_complete a => forget (_cccd_write_complete a c)
  | on_read_complete a => (c, [read_complete_notify a])
  | on_write_complete a => (c, [write_complete_notify a])
  end.
Proof. destruct s; reflexivity. Qed.

Ltac open_step c s :=
  rewrite (step_equation c s); destruct s;
  rewrite ?subscribe_eq, ?unsubscribe_eq, ?read_eq, ?write_eq,
    ?write_without_response_eq, ?on_indication_notification_eq,
    ?cccd_write_complete_eq;
  by_cases_of_step; cbn.

Lemma step_same_identity (c : GattcCharacteristic.t) (s : Stimulus) :
  same_identity c (fst (step c s)).
Proof.
  open_step c s; unfold same_identity; cbn; repeat split.
Qed.

Lemma step_cccd_state (c : GattcCharacteristic.t) (s : Stimulus) :
  cccd_state (fst (step c s)) =
  match s with
  | on_cccd_write_complete a =>
      if nrf_types.is_success (wc_status a)
      then match from_buffer (wc_value a) with
           | Some v => v
           | None => cccd_state c
           end
      else cccd_state c
  | _ => cccd_state c
  end.
Proof.
  open_step c s; reflexivity.
Qed.

Lemma step_handlers (c : GattcCharacteristic.t) (s : Stimulus) :
  _on_notification_event (fst (step c s)) =
  match s with
  | do_subscribe h _ =>
      if subscribable c then _on_notification_event c ++ [h]
      else _on_notification_event c
  | do_unsubscribe =>
      if subscribable c
      then match _cccd_attr c with
           | Some _ => []
           | None => _on_notification_event c
           end
      else _on_notification_event c
  | _ => _on_notification_event c
  end.
Proof.
  open_step c s; reflexivity.
Qed.

Lemma step_invoked (c : GattcCharacteristic.t) (s : Stimulus) :
  invoked (snd (step c s)) =
  match s with
  | on_hvx e => if addressed_to c e then _on_notification_event c else []
  | _ => []
  end.
Proof.
  assert (Hmap : forall args l,
             invoked (map (fun h => notification_handler h args) l) = l).
  { intros args l. induction l as [| h l IH]; cbn; [| rewrite IH]; reflexivity. }
  open_step c s; try reflexivity; apply Hmap.
Qed.

Lemma addressed_to_same_identity (c c' : GattcCharacteristic.t)
    (e : nrf_events.GattcEvtHvx) :
  same_identity c c' -> addressed_to c' e = addressed_to c e.
Proof.
  intros (_ & _ & Hc & _ & Hh & _). unfold addressed_to. rewrite Hc, Hh.
  reflexivity.
Qed.

Lemma subscribable_same_identity (c c' : GattcCharacteristic.t) :
  same_identity c c' -> subscribable c' = subscribable c.
Proof.
  intros (_ & Hp & _). unfold subscribable. rewrite Hp. reflexivity.
Qed.

Lemma run_same_identity (ss : list Stimulus) (c : GattcCharacteristic.t) :
  same_identity c (fst (run c ss)).
Proof.
  revert c. induction ss as [| s ss IH]; intro c; cbn [run].
  - apply same_identity_refl.
  - pose proof (step_same_identity c s) as Hs.
    destruct (step c s) as [c1 t1]. cbn [fst] in Hs.
    specialize (IH c1). destruct (run c1 ss) as [c2 t2]. cbn [fst] in *.
    eapply same_identity_trans; eassumption.
Qed.

(** A registered handler stays registered until [unsubscribe] is called. *)
Lemma run_keeps_handler (h : Handler) (ss : list Stimulus)
    (c : GattcCharacteristic.t) :
  forallb (fun s => negb (is_unsubscribe s)) ss = true ->
  In h (_on_notification_event c) ->
  In h (_on_notification_event (fst (run c ss))).
Proof.
  revert c. induction ss as [| s ss IH]; intros c Hss Hin; cbn [run].
  - exact Hin.
  - cbn [forallb] in Hss. apply andb_prop in Hss as [Hs Hss].
    pose proof (step_handlers c s) as Hh.
    destruct (step c s) as [c1 t1]. cbn [fst] in Hh.
    specialize (IH c1 Hss). destruct (run c1 ss) as [c2 t2]. cbn [fst] in *.
    apply IH. rewrite Hh.
    destruct s; try assumption; try discriminate Hs.
    destruct (subscribable c); [apply in_or_app; left |]; assumption.
Qed.

(** Without handlers, and with no [subscribe] call, no handler is invoked. *)
Lemma run_without_handlers (ss : list Stimulus) (c : GattcCharacteristic.t) :
  forallb (fun s => negb (is_subscribe s)) ss = true ->
  _on_notification_event c = [] ->
  invoked (snd (run c ss)) = []
  /\ _on_notification_event (fst (run c ss)) = [].
Proof.
  assert (Happ : forall t1 t2, invoked (t1 ++ t2) = invoked t1 ++ invoked t2).
  { induction t1 as [| k t1 IH]; intro t2; [reflexivity |].
    destruct k; cbn; rewrite ?IH; reflexivity. }
  revert c. induction ss as [| s ss IH]; intros c Hss Hnil; cbn [run].
  - split; [reflexivity | exact Hnil].
  - cbn [forallb] in Hss. apply andb_prop in Hss as [Hs Hss].
    pose proof (step_handlers c s) as Hh.
    pose proof (step_invoked c s) as Hi.
    destruct (step c s) as [c1 t1]. cbn [fst snd] in Hh, Hi.
    assert (Hnil1 : _on_notification_event c1 = []).
    { rewrite Hh. destruct s; try assumption; try discriminate Hs.
      destruct (subscribable c); [destruct (_cccd_attr c) |]; auto. }
    specialize (IH c1 Hss Hnil1). destruct (run c1 ss) as [c2 t2].
    cbn [fst snd] in *. destruct IH as [IH1 IH2]. split; [| exact IH2].
    rewrite Happ, IH1, Hi, Hnil.
    destruct s; try reflexivity. destruct (addressed_to c event); reflexivity.
Qed.
End StepFacts.

(** ** The claims *)

Ltac conjuncts := repeat match goal with |- _ /\ _ => split end.

Section Claims.
Import GattcCharacteristic.
Import Examples.

(** C1: the subscription state changes only when a CCCD write completes with
  success, and then becomes the state the written buffer stands for;
  [subscribe] and [unsubscribe] leave it as it is, whatever their outcome; a
  completion with another status leaves the whole characteristic as it is;
  and [subscribed] holds exactly when the state is not NOT_SUBSCRIBED. *)
Theorem C1_cccd_state_follows_confirmed_writes :
forall (c : GattcCharacteristic.t) (s : Stimulus) (h : Handler) (p : bool)
       (a : WriteCompleteEventArgs) (v : SubscriptionState),
  (cccd_state (fst (step c s)) <> cccd_state c ->
   exists a', s = on_cccd_write_complete a'
              /\ wc_status a' = nrf_types.success
              /\ from_buffer (wc_value a') = Some (cccd_state (fst (step c s))))
  /\ cccd_state (final_state (subscribe h p c)) = cccd_state c
  /\ cccd_state (final_state (unsubscribe c)) = cccd_state c
  /\ (wc_status a = nrf_types.success -> wc_value a = to_buffer v ->
      cccd_state (final_state (_cccd_write_complete a c)) = v)
  /\ (wc_status a <> nrf_types.success ->
      final_state (_cccd_write_complete a c) = c)
  /\ (subscribed c = true <-> cccd_state c <> NOT_SUBSCRIBED).
Proof.
intros c s h p a v. conjuncts.
- intros Hchanged. rewrite (step_cccd_state c s) in Hchanged.
  destruct s; try (exfalso; apply Hchanged; reflexivity).
  exists args. rewrite (step_cccd_state c (on_cccd_write_complete args)).
  destruct (wc_status args) eqn:Hst; cbn [nrf_types.is_success] in *;
    [| exfalso; apply Hchanged; reflexivity].
  destruct (from_buffer (wc_value args)) eqn:Hbuf;
    [| exfalso; apply Hchanged; reflexivity].
  repeat split.
- exact (step_cccd_state c (do_subscribe h p)).
- exact (step_cccd_state c do_unsubscribe).
- intros Hst Hval. rewrite cccd_write_complete_eq, Hst, Hval.
  destruct v; reflexivity.
- intros Hst. rewrite cccd_write_complete_eq.
  destruct (wc_status a); [contradiction Hst |]; reflexivity.
- unfold subscribed. destruct (cccd_state c); cbn; split;
    congruence || discriminate.
Qed.

(** C2: an event addressed to the characteristic (its connection handle and
  its value attribute's handle) stores the event data as the cached value;
  the calls it causes are the confirmation to the driver, present exactly
  for an indication and standing first, followed by one call of every
  registered handler, in registration order, with the new value and the
  is-indication flag.  Any other event changes nothing and calls nothing. *)
Theorem C2_indication_confirmed_then_handlers_notified :
forall (c : GattcCharacteristic.t) (e : nrf_events.GattcEvtHvx),
  let o := _on_indication_notification e c in
  (addressed_to c e = true ->
   value (final_state o) = nrf_events.data e
   /\ trace o
      = (if is_indication e
         then [ble_gattc_hv_confirm (nrf_events.conn_handle e)
                                    (nrf_events.attr_handle e)]
         else [])
        ++ map (fun h => notification_handler h
                  (Build_NotificationReceivedEventArgs
                     (value (final_state o)) (is_indication e)))
               (_on_notification_event c)
   /\ (is_indication e = false -> confirmed (trace o) = [])
   /\ invoked (trace o) = _on_notification_event c
   /\ result o = Return tt)
  /\ (addressed_to c e = false ->
      final_state o = c /\ trace o = [] /\ result o = Return tt).
Proof.
intros c e o. subst o. rewrite on_indication_notification_eq.
assert (Hinv : forall args l,
           invoked (map (fun h => notification_handler h args) l) = l).
{ intros args l. induction l as [| h l IH]; cbn; [| rewrite IH]; reflexivity. }
assert (Hconf : forall args l,
           confirmed (map (fun h => notification_handler h args) l) = []).
{ intros args l. induction l as [| h l IH]; cbn; [| rewrite IH]; reflexivity. }
split; intros Haddr; rewrite Haddr; cbn.
- repeat split.
  + intros Hnot. rewrite Hnot. cbn. apply Hconf.
  + destruct (is_indication e); cbn; apply Hinv.
- repeat split.
Qed.

(** C3: on a subscribable characteristic with a CCCD, [subscribe] first
  registers the handler and then issues the CCCD write; from its return on,
  whatever happens meanwhile short of an [unsubscribe] call (the write's
  completion need not have arrived), an event addressed to the
  characteristic calls the handler with the event's data. *)
Theorem C3_handler_registered_before_cccd_write :
forall (c : GattcCharacteristic.t) (h : Handler) (p : bool)
       (cccd : GattcAttribute.t) (meanwhile : list Stimulus)
       (e : nrf_events.GattcEvtHvx),
  subscribable c = true ->
  _cccd_attr c = Some cccd ->
  forallb (fun s => negb (is_unsubscribe s)) meanwhile = true ->
  addressed_to c e = true ->
  let o := subscribe h p c in
  (exists v, trace o = [register_handler h;
                        attr_write (GattcAttribute.handle cccd) (to_buffer v) None])
  /\ cccd_state (final_state o) = cccd_state c
  /\ In h (_on_notification_event (final_state o))
  /\ In (notification_handler h
           (Build_NotificationReceivedEventArgs (nrf_events.data e)
                                                (is_indication e)))
        (snd (step (fst (run (final_state o) meanwhile)) (on_hvx e))).
Proof.
intros c h p cccd meanwhile e Hsub Hcccd Hmean Haddr o.
assert (Hreg : In h (_on_notification_event (final_state o))).
{ subst o. rewrite subscribe_eq, Hsub, Hcccd. cbn. apply in_or_app. right.
  left. reflexivity. }
conjuncts.
- subst o. rewrite subscribe_eq, Hsub, Hcccd. cbn. eexists. reflexivity.
- exact (step_cccd_state c (do_subscribe h p)).
- exact Hreg.
- pose proof (run_keeps_handler h meanwhile (final_state o) Hmean Hreg) as Hin.
  pose proof (run_same_identity meanwhile (final_state o)) as Hid.
  pose proof (step_same_identity c (do_subscribe h p)) as Hid0.
  change (fst (step c (do_subscribe h p))) with (final_state o) in Hid0.
  set (c2 := fst (run (final_state o) meanwhile)) in *.
  assert (Haddr2 : addressed_to c2 e = true).
  { rewrite (addressed_to_same_identity (c := c)); [exact Haddr |].
    eapply same_identity_trans; eassumption. }
  rewrite step_equation, on_indication_notification_eq, Haddr2. cbn.
  apply in_or_app. right.
  apply (in_map (fun h0 => notification_handler h0
                   (Build_NotificationReceivedEventArgs (nrf_events.data e)
                                                        (is_indication e)))).
  exact Hin.
Qed.

(** C4: when [unsubscribe] returns, it has issued the CCCD write of
  NOT_SUBSCRIBED and then cleared the handlers, without waiting for the
  write's outcome; from then on, whatever events and completions arrive
  (with whatever status), no handler is invoked, as long as [subscribe] is
  not called again. *)
Theorem C4_unsubscribe_stops_dispatch :
forall (c : GattcCharacteristic.t) (w : IdBasedEventWaitable)
       (afterwards : list Stimulus),
  result (unsubscribe c) = Return w ->
  forallb (fun s => negb (is_subscribe s)) afterwards = true ->
  let o := unsubscribe c in
  (exists cccd, _cccd_attr c = Some cccd
                /\ trace o = [attr_write (GattcAttribute.handle cccd)
                                         (to_buffer NOT_SUBSCRIBED) None;
                              clear_handlers])
  /\ _on_notification_event (final_state o) = []
  /\ cccd_state (final_state o) = cccd_state c
  /\ invoked (snd (run (final_state o) afterwards)) = [].
Proof.
intros c w afterwards Hret Hafter o.
assert (Hnil : _on_notification_event (final_state o) = []).
{ subst o. rewrite unsubscribe_eq in *.
  destruct (subscribable c); [| discriminate Hret].
  destruct (_cccd_attr c); [reflexivity | discriminate Hret]. }
conjuncts.
- subst o. rewrite unsubscribe_eq in *.
  destruct (subscribable c); [| discriminate Hret].
  destruct (_cccd_attr c) as [cccd |]; [| discriminate Hret].
  exists cccd. split; reflexivity.
- exact Hnil.
- exact (step_cccd_state c do_unsubscribe).
- apply (run_without_handlers afterwards (final_state o) Hafter Hnil).
Qed.
(** C5: on a subscribable characteristic [subscribe] selects INDICATION
  exactly when indications are preferred and supported, or notifications
  are not supported, and NOTIFY otherwise; the selected value, as a CCCD
  buffer, is what every write it issues carries, and with a CCCD present it
  issues exactly that one write, to the CCCD's handle.  With indicate set,
  notify unset and no preference, the buffer is [0x02, 0x00]. *)
Theorem C5_subscribe_selects_indication_or_notify :
forall (c : GattcCharacteristic.t) (h : Handler) (p : bool),
  subscribable c = true ->
  exists v,
    (v = INDICATION <->
     (p = true /\ CharacteristicProperties.indicate (_properties c) = true)
     \/ CharacteristicProperties.notify (_properties c) = false)
    /\ (v <> INDICATION -> v = NOTIFY)
    /\ writes (trace (subscribe h p c))
       = match _cccd_attr c with
         | Some cccd => [(GattcAttribute.handle cccd, to_buffer v, None)]
         | None => []
         end
    /\ (CharacteristicProperties.indicate (_properties c) = true ->
        CharacteristicProperties.notify (_properties c) = false ->
        p = false -> to_buffer v = [x02; x00]).
Proof.
intros c h p Hsub. rewrite subscribe_eq, Hsub. cbv zeta.
destruct p, (CharacteristicProperties.indicate (_properties c)) eqn:Hi,
  (CharacteristicProperties.notify (_properties c)) eqn:Hn; cbn [andb orb negb];
  (exists INDICATION + exists NOTIFY);
  (conjuncts;
   [ split; [intros; auto; discriminate
            | intros [[? ?] | ?]; congruence || reflexivity]
   | congruence || reflexivity
   | destruct (_cccd_attr c); reflexivity
   | intros; congruence || reflexivity ]).
Qed.

(** C6 (the code at the failing input): a characteristic discovered with the
  notify property and no CCCD descriptor is subscribable and has no CCCD
  attribute; [subscribe] on it registers the handler and then fails with
  AttributeError, not with InvalidOperationException, and the handler stays
  registered. *)
Theorem C6_subscribe_without_cccd_raises_attribute_error :
subscribable battery_level_no_cccd = true
/\ _cccd_attr battery_level_no_cccd = None
/\ result (subscribe handler false battery_level_no_cccd) = Raise AttributeError
/\ trace (subscribe handler false battery_level_no_cccd)
   = [register_handler handler]
/\ _on_notification_event
     (final_state (subscribe handler false battery_level_no_cccd)) = [handler].
Proof.
conjuncts; vm_compute; reflexivity.
Qed.

(** C7 (counterexample): a characteristic with the write and
    write-no-response properties set, whose string encoding is ascii, is
    asked to write the string e-acute: [write] and [write_without_response]
    raise UnicodeEncodeError and issue no write. *)
Lemma C7_unencodable_str_is_not_written :
  CharacteristicProperties.write (_properties control_point_ascii) = true
  /\ CharacteristicProperties.write_no_response (_properties control_point_ascii)
     = true
  /\ result (write (PyStr e_acute) control_point_ascii) = Raise UnicodeEncodeError
  /\ trace (write (PyStr e_acute) control_point_ascii) = []
  /\ result (write_without_response (PyStr e_acute) control_point_ascii)
     = Raise UnicodeEncodeError
  /\ trace (write_without_response (PyStr e_acute) control_point_ascii) = [].
Proof.
  conjuncts; vm_compute; reflexivity.
Qed.

(** C7 (amended): [read], [write] and [write_without_response] raise
    InvalidOperationException exactly when the read, write and
    write-no-response property, respectively, is not set, and then call
    nothing and change nothing.  Otherwise [read] issues one read of the
    value attribute; [write] issues one write to the value attribute, asking
    for a response, of the bytes it is given, or of the bytes the value
    attribute's string encoding makes of the [str] it is given, and when the
    encoding fails on that [str] it raises the encoding's error, calls
    nothing and changes nothing; [write_without_response] does the same,
    asking for no response.  No length of the data is refused. *)
Theorem C7_read_write_gated_by_properties :
  forall (c : GattcCharacteristic.t) (data : PyData) (b : list byte)
         (s : string),
    let vh := GattcAttribute.handle (_value_attr c) in
    let written := Return (Build_IdBasedEventWaitable OnWriteComplete (issued c)) in
    (result (read c) = Raise InvalidOperationException
     <-> CharacteristicProperties.read (_properties c) = false)
    /\ (CharacteristicProperties.read (_properties c) = false ->
        final_state (read c) = c /\ trace (read c) = [])
    /\ (CharacteristicProperties.read (_properties c) = true ->
        trace (read c) = [attr_read vh]
        /\ result (read c)
           = Return (Build_IdBasedEventWaitable OnReadComplete (issued c)))
    /\ (result (write data c) = Raise InvalidOperationException
        <-> CharacteristicProperties.write (_properties c) = false)
    /\ (CharacteristicProperties.write (_properties c) = false ->
        final_state (write data c) = c /\ trace (write data c) = [])
    /\ (CharacteristicProperties.write (_properties c) = true ->
        (trace (write (PyBytes b) c) = [attr_write vh b (Some true)]
         /\ result (write (PyBytes b) c) = written)
        /\ (forall encoded, string_encoding c s = inr encoded ->
             trace (write (PyStr s) c) = [attr_write vh encoded (Some true)]
             /\ result (write (PyStr s) c) = written)
        /\ (forall e, string_encoding c s = inl e ->
             result (write (PyStr s) c) = Raise (codec_exception e)
             /\ trace (write (PyStr s) c) = []
             /\ final_state (write (PyStr s) c) = c))
    /\ (result (write_without_response data c) = Raise InvalidOperationException
        <-> CharacteristicProperties.write_no_response (_properties c) = false)
    /\ (CharacteristicProperties.write_no_response (_properties c) = false ->
        final_state (write_without_response data c) = c
        /\ trace (write_without_response data c) = [])
    /\ (CharacteristicProperties.write_no_response (_properties c) = true ->
        (trace (write_without_response (PyBytes b) c)
         = [attr_write vh b (Some false)]
         /\ result (write_without_response (PyBytes b) c) = written)
        /\ (forall encoded, string_encoding c s = inr encoded ->
             trace (write_without_response (PyStr s) c)
             = [attr_write vh encoded (Some false)]
             /\ result (write_without_response (PyStr s) c) = written)
        /\ (forall e, string_encoding c s = inl e ->
             result (write_without_response (PyStr s) c)
             = Raise (codec_exception e)
             /\ trace (write_without_response (PyStr s) c) = []
             /\ final_state (write_without_response (PyStr s) c) = c)).
Proof.
  intros c data b s vh written. subst vh written.
  assert (Hdata : forall e, to_bytes c data = Raise e ->
                            e <> InvalidOperationException).
  { intros e He. unfold to_bytes in He. destruct data as [s0 | b0];
      [| discriminate He].
    destruct (GattcAttribute.string_encoding (_value_attr c) s0) as [ce | b0];
      [| discriminate He].
    injection He as <-. destruct ce; discriminate. }
  rewrite read_eq, !write_eq, !write_without_response_eq.
  unfold readable, writable, writable_without_response, string_encoding.
  cbn [to_bytes].
  conjuncts.
  - destruct (CharacteristicProperties.read (_properties c)); cbn;
      split; intros H; (discriminate H || reflexivity).
  - intros ->. split; reflexivity.
  - intros ->. split; reflexivity.
  - destruct (CharacteristicProperties.write (_properties c)); cbn;
      [| split; reflexivity].
    destruct (to_bytes c data) as [b0 | e]; cbn;
      split; intros H; try discriminate H.
    injection H as ->. exfalso. exact (Hdata _ eq_refl eq_refl).
  - intros ->. split; reflexivity.
  - intros ->. conjuncts; try reflexivity.
    + intros encoded ->. split; reflexivity.
    + intros e ->. conjuncts; reflexivity.
  - destruct (CharacteristicProperties.write_no_response (_properties c)); cbn;
      [| split; reflexivity].
    destruct (to_bytes c data) as [b0 | e]; cbn;
      split; intros H; try discriminate H.
    injection H as ->. exfalso. exact (Hdata _ eq_refl eq_refl).
  - intros ->. split; reflexivity.
  - intros ->. conjuncts; try reflexivity.
    + intros encoded ->. split; reflexivity.
    + intros e ->. conjuncts; reflexivity.
Qed.

(** C8 (counterexample): a Uuid is assigned to after it was constructed.
  [DeclarationUuid.primary_service] is constructed as [Uuid16("2800")],
  without a description; the loop that runs when [bt_sig.uuids] is loaded
  sets its description to the words of its name. *)
Lemma C8_description_assigned_after_construction :
In ("primary_service"%string, DeclarationUuid.primary_service)
   bt_sig.DeclarationUuid_dict
/\ uuid.description DeclarationUuid.primary_service = ""%string
/\ uuid.description
     (bt_sig.described bt_sig.snake_case_to_capitalized_words
        ("primary_service"%string, DeclarationUuid.primary_service))
   = "Primary Service"%string
/\ bt_sig.described bt_sig.snake_case_to_capitalized_words
     ("primary_service"%string, DeclarationUuid.primary_service)
   <> DeclarationUuid.primary_service.
Proof.
conjuncts.
- left. reflexivity.
- reflexivity.
- reflexivity.
- vm_compute. discriminate.
Qed.

(** C8 (amended): a 16-bit UUID and the 128-bit UUID that is the Bluetooth
    base UUID plus the 16-bit value moved up 96 bits compare equal, in either
    order and whatever their descriptions.  The loop over the UUID constants
    assigns descriptions only: it leaves the numeric value of every Uuid, and
    so what it is equal to, as constructed; it leaves a Uuid that has a
    description untouched; and to every Uuid that has none it assigns the
    words made from the name the Uuid is bound to, throughout a class, as for
    the declaration UUIDs, which end up described as Primary Service,
    Secondary Service and Characteristic Declaration. *)
Theorem C8_uuid_equality_is_by_normalized_value :
  forall (x : N) (d d' : string) (words : string -> string) (k : string)
         (v : Uuid) (ns : list (string * Uuid)),
    (x < 2 ^ 16)%N ->
    uuid.eqb (uuid.Uuid16 x d)
             (uuid.Uuid128 (uuid.bluetooth_base + x * 2 ^ 96) d') = true
    /\ uuid.eqb (uuid.Uuid128 (uuid.bluetooth_base + x * 2 ^ 96) d')
                (uuid.Uuid16 x d) = true
    /\ uuid.eqb (uuid.Uuid16 x d) (uuid.to_uuid128 (uuid.Uuid16 x d)) = true
    /\ (uuid.bluetooth_base + x * 2 ^ 96 < 2 ^ 128)%N
    /\ uuid.normalized (bt_sig.described words (k, v)) = uuid.normalized v
    /\ uuid.eqb (bt_sig.described words (k, v)) v = true
    /\ (uuid.description v <> ""%string -> bt_sig.described words (k, v) = v)
    /\ (uuid.description v = ""%string ->
        bt_sig.described words (k, v) = bt_sig.set_description v (words k)
        /\ uuid.description (bt_sig.described words (k, v)) = words k)
    /\ map (fun kv => uuid.description (snd kv)) (bt_sig.loaded words ns)
       = map (fun kv => if String.eqb (uuid.description (snd kv)) ""
                        then words (fst kv)
                        else uuid.description (snd kv)) ns
    /\ map (fun kv => uuid.description (snd kv))
           (bt_sig.loaded bt_sig.snake_case_to_capitalized_words
                          bt_sig.DeclarationUuid_dict)
       = ["Primary Service"; "Secondary Service";
          "Characteristic Declaration"]%string.
Proof.
  intros x d d' words k v ns Hx.
  pose proof (base_expansion_arith x) as Harith.
  assert (Hset : forall u e, uuid.description (bt_sig.set_description u e) = e)
    by (intros [? ?|? ?] e; reflexivity).
  conjuncts.
  - unfold uuid.eqb; cbn [uuid.normalized]. rewrite Harith. apply N.eqb_refl.
  - unfold uuid.eqb; cbn [uuid.normalized]. rewrite Harith. apply N.eqb_refl.
  - apply N.eqb_refl.
  - rewrite <- Harith. apply base_expansion_128_bits, Hx.
  - apply described_normalized.
  - unfold uuid.eqb. rewrite described_normalized. apply N.eqb_refl.
  - intros Hd. unfold bt_sig.described.
    destruct (String.eqb (uuid.description v) "") eqn:He; [| reflexivity].
    apply String.eqb_eq in He. contradiction.
  - intros Hd. unfold bt_sig.described. rewrite Hd. cbn [String.eqb].
    split; [reflexivity | apply Hset].
  - unfold bt_sig.loaded. rewrite map_map. apply map_ext. intros [k0 v0].
    cbn [fst snd]. unfold bt_sig.described.
    destruct (String.eqb (uuid.description v0) ""); [apply Hset | reflexivity].
  - vm_compute. reflexivity.
Qed.

(** C10: after [unsubscribe] has returned, an event addressed to the
  characteristic still stores its data as the cached value and an
  indication is still confirmed to the driver, while no handler is called;
  and [unsubscribe] on a characteristic with neither notify nor indicate
  raises InvalidOperationException, calling nothing and changing nothing. *)
Theorem C10_after_unsubscribe_value_and_confirmation_remain :
forall (c : GattcCharacteristic.t) (w : IdBasedEventWaitable)
       (e : nrf_events.GattcEvtHvx) (c0 : GattcCharacteristic.t),
  result (unsubscribe c) = Return w ->
  addressed_to c e = true ->
  CharacteristicProperties.notify (_properties c0) = false ->
  CharacteristicProperties.indicate (_properties c0) = false ->
  let o := _on_indication_notification e (final_state (unsubscribe c)) in
  (value (final_state o) = nrf_events.data e
   /\ trace o = (if is_indication e
                 then [ble_gattc_hv_confirm (nrf_events.conn_handle e)
                                            (nrf_events.attr_handle e)]
                 else [])
   /\ invoked (trace o) = []
   /\ result o = Return tt)
  /\ unsubscribe c0 = (c0, [], Raise InvalidOperationException).
Proof.
intros c w e c0 Hret Haddr Hn Hi o. split.
- pose proof (step_same_identity c do_unsubscribe) as Hid.
  change (fst (step c do_unsubscribe)) with (final_state (unsubscribe c)) in Hid.
  assert (Hnil : _on_notification_event (final_state (unsubscribe c)) = []).
  { rewrite unsubscribe_eq in *.
    destruct (subscribable c); [| discriminate Hret].
    destruct (_cccd_attr c); [reflexivity | discriminate Hret]. }
  subst o. rewrite on_indication_notification_eq.
  rewrite (addressed_to_same_identity e Hid), Haddr, Hnil. cbn.
  rewrite app_nil_r. conjuncts; try reflexivity.
  destruct (is_indication e); reflexivity.
- rewrite unsubscribe_eq. unfold subscribable. rewrite Hn, Hi. reflexivity.
Qed.

(** ** The theorems at the battery-level characteristic *)

Lemma C3_witness :
In (notification_handler handler
      (Build_NotificationReceivedEventArgs [x3c] false))
   (snd (step (fst (run (final_state (subscribe handler false battery_level))
                        [on_hvx (hvx 11 nrf_events.indication [x55]); do_read]))
              (on_hvx (hvx 11 nrf_events.notification [x3c])))).
Proof.
apply (C3_handler_registered_before_cccd_write
         battery_level handler false (cccd := cccd_attribute)
         [on_hvx (hvx 11 nrf_events.indication [x55]); do_read]
         (hvx 11 nrf_events.notification [x3c]));
  vm_compute; reflexivity.
Defined.

Lemma C4_witness :
invoked
  (snd (run (final_state (unsubscribe
               (final_state (subscribe handler false battery_level))))
            [on_hvx (hvx 11 nrf_events.notification [x3c]);
             on_cccd_write_complete
               (Build_WriteCompleteEventArgs 1 [x00; x00] (nrf_types.failure 1) 0);
             on_hvx (hvx 11 nrf_events.indication [x3d])]))
= [].
Proof.
apply (C4_unsubscribe_stops_dispatch
         (final_state (subscribe handler false battery_level))
         (w := Build_IdBasedEventWaitable OnCccdWriteComplete 1));
  vm_compute; reflexivity.
Defined.

Lemma C5_witness :
exists v,
  writes (trace (subscribe handler false battery_level))
  = [(12%N, to_buffer v, None)] /\ v = NOTIFY.
Proof.
destruct (C5_subscribe_selects_indication_or_notify battery_level handler false)
  as (v & Hiff & Hnot & Hw & _); [vm_compute; reflexivity |].
exists v. split; [exact Hw |].
apply Hnot. intros Hv. apply Hiff in Hv.
destruct Hv as [[Hp _] | Hn]; [discriminate Hp | vm_compute in Hn; discriminate Hn].
Defined.

Lemma C8_witness :
uuid.eqb DescriptorUuid.cccd
         (uuid.Uuid128 (uuid.bluetooth_base + 0x2902 * 2 ^ 96) "") = true.
Proof.
apply (C8_uuid_equality_is_by_normalized_value
         (x := 0x2902)
         "Client Characteristic Configuration Descriptor" ""
         bt_sig.snake_case_to_capitalized_words "cccd" DescriptorUuid.cccd
         bt_sig.DescriptorUuid_dict).
vm_compute. reflexivity.
Defined.

Lemma C10_witness :
value (final_state
         (_on_indication_notification (hvx 11 nrf_events.indication [x3d])
            (final_state (unsubscribe
               (final_state (subscribe handler false battery_level))))))
= [x3d].
Proof.
apply (C10_after_unsubscribe_value_and_confirmation_remain
         (final_state (subscribe handler false battery_level))
         (w := Build_IdBasedEventWaitable OnCccdWriteComplete 1)
         (hvx 11 nrf_events.indication [x3d])
         mute);
  vm_compute; reflexivity.
Defined.
End Claims.

(** ** The scenarios of the battery service, run *)

Section Scenarios.
Import GattcCharacteristic.
Import Examples.

(** [read()] issues a read of handle 11. *)
Example scenario_read :
  trace (read battery_level) = [attr_read 11].
Proof. vm_compute. reflexivity. Qed.

(** [subscribe(h)] writes [0x01, 0x00] to handle 12; the successful
    completion makes the state NOTIFY; a notification of [60] on handle 11
    then calls [h] with that value and sends no confirmation. *)
Example scenario_subscribe_notify :
  let '(c1, t1) := step battery_level (do_subscribe handler false) in
  let '(c2, t2) :=
    step c1 (on_cccd_write_complete
               (Build_WriteCompleteEventArgs 0 [x01; x00] nrf_types.success 0)) in
  let '(c3, t3) := step c2 (on_hvx (hvx 11 nrf_events.notification [x3c])) in
  writes t1 = [(12%N, [x01; x00], None)]
  /\ cccd_state c1 = NOT_SUBSCRIBED
  /\ cccd_state c2 = NOTIFY /\ subscribed c2 = true
  /\ t3 = [notification_handler handler
             (Build_NotificationReceivedEventArgs [x3c] false)]
  /\ value c3 = [x3c].
Proof. vm_compute. repeat split. Qed.

(** A failed completion leaves the state where it was. *)
Example scenario_failed_cccd_write :
  cccd_state
    (fst (run battery_level
            [do_subscribe handler false;
             on_cccd_write_complete
               (Build_WriteCompleteEventArgs 0 [x01; x00]
                                             (nrf_types.failure 0x0103) 0)]))
  = NOT_SUBSCRIBED.
Proof. vm_compute. reflexivity. Qed.

(** With indicate only, [subscribe(h, prefer_indications=False)] writes
    [0x02, 0x00]. *)
Example scenario_indicate_only :
  writes (trace (subscribe handler false
                   (init conn CharacteristicUuid.battery_level indicate_only
                         (GattcAttribute.new DeclarationUuid.characteristic 10 [])
                         (GattcAttribute.new CharacteristicUuid.battery_level 11 [])
                         (Some cccd_attribute) [])))
  = [(12%N, [x02; x00], None)].
Proof. vm_compute. reflexivity. Qed.

(** Lookup by a 128-bit UUID finds what was discovered under the 16-bit
    one; an unknown UUID finds nothing. *)
Example scenario_lookup :
  option_map GattcAttribute.handle
    (find_descriptor battery_level
       (uuid.Uuid128 0x0000290200001000800000805F9B34FB ""))
  = Some 12%N
  /\ GattcDatabase.find_service database (uuid.Uuid16 0x1800 "") = None
  /\ option_map GattcCharacteristic.uuid
       (GattcDatabase.find_characteristic database
          CharacteristicUuid.battery_level)
     = Some CharacteristicUuid.battery_level.
Proof. vm_compute. repeat split. Qed.
End Scenarios.

(** * Further properties of the code *)

(** ** The attribute tuple is sorted by handle *)

Section SortedAttributes.
Import GattcCharacteristic.

Lemma insert_by_handle_perm (a : GattcAttribute.t) (l : list GattcAttribute.t) :
  Permutation (a :: l) (insert_by_handle a l).
Proof.
  induction l as [| b l IH]; cbn [insert_by_handle]; [reflexivity |].
  destruct (GattcAttribute.handle a <=? GattcAttribute.handle b)%N; [reflexivity |].
  rewrite perm_swap. apply perm_skip, IH.
Qed.

Lemma insert_by_handle_hd (a x : GattcAttribute.t) (l : list GattcAttribute.t) :
  HdRel handle_le x l -> handle_le x a -> HdRel handle_le x (insert_by_handle a l).
Proof.
  intros Hl Hxa. destruct l as [| b l]; cbn [insert_by_handle].
  - constructor. exact Hxa.
  - destruct (GattcAttribute.handle a <=? GattcAttribute.handle b)%N.
    + constructor. exact Hxa.
    + constructor. inversion Hl; assumption.
Qed.

Lemma insert_by_handle_sorted (a : GattcAttribute.t) (l : list GattcAttribute.t) :
  Sorted handle_le l -> Sorted handle_le (insert_by_handle a l).
Proof.
  induction l as [| b l IH]; intros Hs; cbn [insert_by_handle].
  - repeat constructor.
  - destruct (GattcAttribute.handle a <=? GattcAttribute.handle b)%N eqn:Hab.
    + constructor; [exact Hs |]. constructor. apply N.leb_le, Hab.
    + inversion Hs as [| ? ? Hs' Hhd]; subst.
      constructor; [apply IH, Hs' |].
      apply insert_by_handle_hd; [exact Hhd |].
      apply N.leb_gt in Hab. unfold handle_le. lia.
Qed.

Lemma sorted_by_handle_sorted (l : list GattcAttribute.t) :
  StronglySorted handle_le (sorted_by_handle l).
Proof.
  apply Sorted_StronglySorted.
  - intros x y z Hxy Hyz. unfold handle_le in *. lia.
  - induction l as [| a l IH]; cbn; [constructor |].
    apply insert_by_handle_sorted, IH.
Qed.

Lemma sorted_by_handle_perm (l : list GattcAttribute.t) :
  Permutation l (sorted_by_handle l).
Proof.
  induction l as [| a l IH]; cbn; [reflexivity |].
  rewrite <- insert_by_handle_perm. apply perm_skip, IH.
Qed.

Lemma insert_by_handle_filter (h : N) (a : GattcAttribute.t)
    (l : list GattcAttribute.t) :
  filter (fun x => GattcAttribute.handle x =? h)%N (insert_by_handle a l)
  = filter (fun x => GattcAttribute.handle x =? h)%N (a :: l).
Proof.
  induction l as [| b l IH]; cbn [insert_by_handle]; [reflexivity |].
  destruct (GattcAttribute.handle a <=? GattcAttribute.handle b)%N eqn:Hab;
    [reflexivity |].
  apply N.leb_gt in Hab.
  cbn [filter] in *. rewrite IH.
  destruct (GattcAttribute.handle a =? h)%N eqn:Ha,
           (GattcAttribute.handle b =? h)%N eqn:Hb; try reflexivity.
  apply N.eqb_eq in Ha, Hb. lia.
Qed.

End SortedAttributes.

(** X1: the attribute tuple a characteristic is constructed with holds
    exactly the attributes passed in, each as often as passed, in ascending
    order of their handles. *)
Theorem X1_init_sorts_attributes_by_handle :
  forall (conn : N) (u : Uuid) (properties : gatt.CharacteristicProperties.t)
         (decl_attr value_attr : GattcAttribute.t)
         (cccd_attr : option GattcAttribute.t)
         (attributes : list GattcAttribute.t),
    let c := GattcCharacteristic.init conn u properties decl_attr value_attr
                                      cccd_attr attributes in
    StronglySorted handle_le (GattcCharacteristic._attributes c)
    /\ Permutation attributes (GattcCharacteristic._attributes c)
    /\ List.length (GattcCharacteristic._attributes c) = List.length attributes.
Proof.
  intros conn u properties decl_attr value_attr cccd_attr attributes c.
  subst c. cbn [GattcCharacteristic.init GattcCharacteristic._attributes].
  conjuncts.
  - apply sorted_by_handle_sorted.
  - apply sorted_by_handle_perm.
  - symmetry. apply Permutation_length, sorted_by_handle_perm.
Qed.

(** X2: the sort is stable: attributes that share a handle keep the order
    they were passed in. *)
Theorem X2_attributes_with_equal_handles_keep_their_order :
  forall (attributes : list GattcAttribute.t) (h : N),
    filter (fun a => GattcAttribute.handle a =? h)%N
           (GattcCharacteristic.sorted_by_handle attributes)
    = filter (fun a => GattcAttribute.handle a =? h)%N attributes.
Proof.
  intros attributes h.
  induction attributes as [| a l IH]; [reflexivity |].
  cbn [GattcCharacteristic.sorted_by_handle fold_right].
  rewrite insert_by_handle_filter. cbn [filter].
  fold (GattcCharacteristic.sorted_by_handle l). rewrite IH. reflexivity.
Qed.


(** ** What discovery makes of a characteristic *)

Section Discovery.
Import GattcCharacteristic.

Lemma last_match_snoc {X : Type} (hit : X -> bool) (l : list X) (x : X) :
  last_match hit (l ++ [x]) = if hit x then Some x else last_match hit l.
Proof.
  unfold last_match. rewrite rev_unit. reflexivity.
Qed.

Lemma last_match_some {X : Type} (hit : X -> bool) (l : list X) (x : X) :
  last_match hit l = Some x -> In x l /\ hit x = true.
Proof.
  unfold last_match. intros H. apply find_some in H as [Hin Hhit].
  split; [apply in_rev, Hin | exact Hhit].
Qed.

Lemma last_match_none {X : Type} (hit : X -> bool) (l : list X) :
  last_match hit l = None <-> Forall (fun x => hit x = false) l.
Proof.
  unfold last_match. rewrite Forall_forall. split.
  - intros H x Hin. apply (find_none _ _ H). apply in_rev in Hin. exact Hin.
  - intros H. destruct (find hit (rev l)) as [x |] eqn:Hf; [| reflexivity].
    apply find_some in Hf as [Hin Hhit]. apply in_rev in Hin.
    rewrite (H x Hin) in Hhit. discriminate Hhit.
Qed.

(** The locals after the loop over the descriptors. *)
Lemma classify_loop (char_uuid : Uuid) (l : list BLEGattDescriptor) :
  let f := fold_left (classify char_uuid) l (Build_Found None None None []) in
  attributes f = map attribute_of l
  /\ decl_attr f = option_map attribute_of (last_match is_declaration l)
  /\ value_attr f = option_map attribute_of (last_match (is_value char_uuid) l)
  /\ cccd_attr f = option_map attribute_of (last_match (is_cccd char_uuid) l).
Proof.
  induction l as [| d l IH] using rev_ind; [repeat split |].
  cbv zeta in *. rewrite fold_left_app. cbn [fold_left].
  set (f := fold_left (classify char_uuid) l _) in *.
  destruct IH as (Ha & Hd & Hv & Hc).
  rewrite !last_match_snoc, map_app. cbn [map].
  unfold classify, is_value, is_cccd, is_declaration.
  fold (attribute_of d). rewrite Ha.
  destruct (uuid.eqb (desc_uuid d) DeclarationUuid.characteristic);
    [cbn; auto |].
  destruct (uuid.eqb (desc_uuid d) char_uuid); [cbn; auto |].
  destruct (uuid.eqb (desc_uuid d) DescriptorUuid.cccd); cbn; auto.
Qed.

Lemma from_discovered_characteristic_eq (conn : N) (nrf : BLEGattCharacteristic) :
  from_discovered_characteristic conn nrf =
  let u := nrf_uuid nrf in
  let made_decl := GattcAttribute.new DeclarationUuid.characteristic
                     (handle_decl nrf) (data_decl nrf) in
  let made_value := GattcAttribute.new u (handle_value nrf) (data_value nrf) in
  let found_decl := last_match is_declaration (descs nrf) in
  let found_value := last_match (is_value u) (descs nrf) in
  init conn u (char_props nrf)
       (match found_decl with Some d => attribute_of d | None => made_decl end)
       (match found_value with Some d => attribute_of d | None => made_value end)
       (option_map attribute_of (last_match (is_cccd u) (descs nrf)))
       (map attribute_of (descs nrf)
        ++ (match found_decl with Some _ => [] | None => [made_decl] end)
        ++ (match found_value with Some _ => [] | None => [made_value] end)).
Proof.
  unfold from_discovered_characteristic.
  destruct (classify_loop (nrf_uuid nrf) (descs nrf)) as (Ha & Hd & Hv & Hc).
  cbv zeta in *. rewrite Ha, Hd, Hv, Hc.
  destruct (last_match is_declaration (descs nrf)),
           (last_match (is_value (nrf_uuid nrf)) (descs nrf));
    cbn [option_map]; rewrite <- ?app_assoc, ?app_nil_r; reflexivity.
Qed.

Lemma cccd_is_no_declaration (u : Uuid) :
  uuid.eqb u DescriptorUuid.cccd = true ->
  uuid.eqb u DeclarationUuid.characteristic = false.
Proof.
  intros Hc. destruct (uuid.eqb u DeclarationUuid.characteristic) eqn:Hd;
    [| reflexivity].
  rewrite uuid_eqb_sym in Hc.
  pose proof (uuid_eqb_trans _ _ _ Hc Hd) as Habs.
  vm_compute in Habs. discriminate Habs.
Qed.
End Discovery.

(** X4: in a discovered characteristic the declaration attribute is the last
    descriptor with the declaration UUID, the value attribute the last other
    descriptor with the characteristic's UUID, the CCCD attribute the last
    descriptor after those with the CCCD UUID; where discovery reported none,
    the declaration and value attributes are made from the handles and data
    of the characteristic record, and there is no CCCD attribute. *)
Theorem X4_discovery_takes_the_last_matching_descriptor :
  forall (conn : N) (nrf : GattcCharacteristic.BLEGattCharacteristic),
    let c := GattcCharacteristic.from_discovered_characteristic conn nrf in
    let u := GattcCharacteristic.nrf_uuid nrf in
    let descs := GattcCharacteristic.descs nrf in
    GattcCharacteristic._decl_attr c
    = match last_match is_declaration descs with
      | Some d => attribute_of d
      | None => GattcAttribute.new DeclarationUuid.characteristic
                  (GattcCharacteristic.handle_decl nrf)
                  (GattcCharacteristic.data_decl nrf)
      end
    /\ GattcCharacteristic._value_attr c
       = match last_match (is_value u) descs with
         | Some d => attribute_of d
         | None => GattcAttribute.new u (GattcCharacteristic.handle_value nrf)
                     (GattcCharacteristic.data_value nrf)
         end
    /\ GattcCharacteristic._cccd_attr c
       = option_map attribute_of (last_match (is_cccd u) descs).
Proof.
  intros conn nrf c u descs. subst c u descs.
  rewrite from_discovered_characteristic_eq. repeat split.
Qed.

(** X5: in a discovered characteristic the value attribute's UUID equals the
    characteristic's, the declaration attribute's UUID equals the declaration
    UUID and a CCCD attribute's UUID equals the CCCD UUID; all three are
    among the characteristic's attributes. *)
Theorem X5_discovered_attributes_carry_their_uuids :
  forall (conn : N) (nrf : GattcCharacteristic.BLEGattCharacteristic),
    let c := GattcCharacteristic.from_discovered_characteristic conn nrf in
    uuid.eqb (GattcAttribute.uuid (GattcCharacteristic._value_attr c))
             (GattcCharacteristic.uuid c) = true
    /\ uuid.eqb (GattcAttribute.uuid (GattcCharacteristic._decl_attr c))
                DeclarationUuid.characteristic = true
    /\ In (GattcCharacteristic._value_attr c) (GattcCharacteristic._attributes c)
    /\ In (GattcCharacteristic._decl_attr c) (GattcCharacteristic._attributes c)
    /\ (forall cccd, GattcCharacteristic._cccd_attr c = Some cccd ->
          uuid.eqb (GattcAttribute.uuid cccd) DescriptorUuid.cccd = true
          /\ In cccd (GattcCharacteristic._attributes c)).
Proof.
  intros conn nrf c. subst c. rewrite from_discovered_characteristic_eq.
  cbv zeta.
  cbn [GattcCharacteristic.init GattcCharacteristic._value_attr
       GattcCharacteristic._decl_attr GattcCharacteristic._cccd_attr
       GattcCharacteristic.uuid GattcCharacteristic._attributes].
  set (u := GattcCharacteristic.nrf_uuid nrf).
  set (descs := GattcCharacteristic.descs nrf).
  assert (Hmem : forall a l, In a l -> In a (GattcCharacteristic.sorted_by_handle l)).
  { intros a l. apply Permutation_in, sorted_by_handle_perm. }
  conjuncts.
  - destruct (last_match (is_value u) descs) as [d |] eqn:Hv.
    + apply last_match_some in Hv as [_ Hhit]. unfold is_value in Hhit.
      apply andb_prop in Hhit as [_ Hhit]. exact Hhit.
    + apply uuid_eqb_refl.
  - destruct (last_match is_declaration descs) as [d |] eqn:Hd.
    + apply last_match_some in Hd as [_ Hhit]. exact Hhit.
    + apply uuid_eqb_refl.
  - apply Hmem. destruct (last_match (is_value u) descs) as [d |] eqn:Hv.
    + apply last_match_some in Hv as [Hin _].
      apply in_or_app. left. apply in_map, Hin.
    + apply in_or_app. right. apply in_or_app. right. left. reflexivity.
  - apply Hmem. destruct (last_match is_declaration descs) as [d |] eqn:Hd.
    + apply last_match_some in Hd as [Hin _].
      apply in_or_app. left. apply in_map, Hin.
    + apply in_or_app. right. apply in_or_app. left. left. reflexivity.
  - intros cccd Hc.
    destruct (last_match (is_cccd u) descs) as [d |] eqn:Hl; [| discriminate Hc].
    injection Hc as <-. apply last_match_some in Hl as [Hin Hhit].
    unfold is_cccd in Hhit. apply andb_prop in Hhit as [_ Hhit]. split.
    + exact Hhit.
    + apply Hmem, in_or_app. left. apply in_map, Hin.
Qed.

(** X6: a discovered characteristic has one attribute for every descriptor
    reported, with that descriptor's UUID and handle and an empty value, and
    at most two attributes more; they are in ascending order of handle.  It
    starts on the connection it was discovered on, with the reported UUID
    and properties, not subscribed and with no handler. *)
Theorem X6_discovered_characteristic_holds_every_descriptor :
  forall (conn : N) (nrf : GattcCharacteristic.BLEGattCharacteristic),
    let c := GattcCharacteristic.from_discovered_characteristic conn nrf in
    let descs := GattcCharacteristic.descs nrf in
    (forall d, In d descs ->
       exists a, In a (GattcCharacteristic._attributes c)
                 /\ GattcAttribute.uuid a = GattcCharacteristic.desc_uuid d
                 /\ GattcAttribute.handle a = GattcCharacteristic.desc_handle d
                 /\ GattcAttribute.value a = [])
    /\ (List.length descs <= List.length (GattcCharacteristic._attributes c)
        <= List.length descs + 2)%nat
    /\ StronglySorted handle_le (GattcCharacteristic._attributes c)
    /\ pristine conn c
    /\ GattcCharacteristic.subscribed c = false
    /\ GattcCharacteristic.uuid c = GattcCharacteristic.nrf_uuid nrf
    /\ GattcCharacteristic._properties c = GattcCharacteristic.char_props nrf.
Proof.
  intros conn nrf c descs. subst c descs.
  rewrite from_discovered_characteristic_eq. cbv zeta.
  cbn [GattcCharacteristic.init GattcCharacteristic._attributes
       GattcCharacteristic.uuid GattcCharacteristic._properties].
  conjuncts.
  - intros d Hin. exists (attribute_of d). conjuncts; try reflexivity.
    apply (Permutation_in _ (sorted_by_handle_perm _)).
    apply in_or_app. left. apply in_map, Hin.
  - rewrite <- (Permutation_length (sorted_by_handle_perm _)).
    rewrite !length_app, length_map.
    destruct (last_match is_declaration _), (last_match (is_value _) _);
      cbn; lia.
  - rewrite <- (Permutation_length (sorted_by_handle_perm _)).
    rewrite !length_app, length_map.
    destruct (last_match is_declaration _), (last_match (is_value _) _);
      cbn; lia.
  - apply sorted_by_handle_sorted.
  - repeat split.
  - reflexivity.
  - reflexivity.
  - reflexivity.
Qed.

(** X7: for a characteristic whose own UUID is not the CCCD UUID, discovery
    leaves it without a CCCD attribute exactly when no reported descriptor
    has the CCCD UUID; and if its properties make it subscribable,
    [subscribe] raises AttributeError in exactly that case. *)
Theorem X7_no_cccd_descriptor_no_cccd_attribute :
  forall (conn : N) (nrf : GattcCharacteristic.BLEGattCharacteristic)
         (h : Handler) (p : bool),
    uuid.eqb (GattcCharacteristic.nrf_uuid nrf) DescriptorUuid.cccd = false ->
    let c := GattcCharacteristic.from_discovered_characteristic conn nrf in
    let no_cccd_reported :=
      Forall (fun d => uuid.eqb (GattcCharacteristic.desc_uuid d)
                                DescriptorUuid.cccd = false)
             (GattcCharacteristic.descs nrf) in
    (GattcCharacteristic._cccd_attr c = None <-> no_cccd_reported)
    /\ (GattcCharacteristic.subscribable c = true ->
        (result (GattcCharacteristic.subscribe h p c) = Raise AttributeError
         <-> no_cccd_reported)).
Proof.
  intros conn nrf h p Hu c no_cccd_reported.
  assert (Hhit : forall d,
             is_cccd (GattcCharacteristic.nrf_uuid nrf) d
             = uuid.eqb (GattcCharacteristic.desc_uuid d) DescriptorUuid.cccd).
  { intros d. unfold is_cccd, is_declaration.
    destruct (uuid.eqb (GattcCharacteristic.desc_uuid d) DescriptorUuid.cccd)
      eqn:Hc; [| apply andb_false_r].
    rewrite (cccd_is_no_declaration _ Hc).
    destruct (uuid.eqb (GattcCharacteristic.desc_uuid d)
                       (GattcCharacteristic.nrf_uuid nrf)) eqn:Hd;
      [| reflexivity].
    rewrite uuid_eqb_sym in Hd.
    rewrite (uuid_eqb_trans _ _ _ Hd Hc) in Hu. discriminate Hu. }
  assert (Hnone : GattcCharacteristic._cccd_attr c = None <-> no_cccd_reported).
  { subst c no_cccd_reported. rewrite from_discovered_characteristic_eq.
    cbv zeta. cbn [GattcCharacteristic.init GattcCharacteristic._cccd_attr].
    assert (Hall : Forall (fun d => is_cccd (GattcCharacteristic.nrf_uuid nrf) d
                                    = false) (GattcCharacteristic.descs nrf)
                   <-> Forall (fun d => uuid.eqb (GattcCharacteristic.desc_uuid d)
                                                 DescriptorUuid.cccd = false)
                              (GattcCharacteristic.descs nrf)).
    { rewrite !Forall_forall.
      split; intros H d Hin; specialize (H d Hin);
        [rewrite <- Hhit | rewrite Hhit]; exact H. }
    rewrite <- Hall, <- last_match_none.
    destruct (last_match _ _); cbn [option_map];
      split; intros H; (discriminate H || reflexivity). }
  split; [exact Hnone |].
  intros Hsub. rewrite subscribe_eq, Hsub. cbv zeta. rewrite <- Hnone.
  destruct (GattcCharacteristic._cccd_attr c); cbn [result snd];
    split; intros H; (discriminate H || reflexivity).
Qed.

(** ** Lookups across services and across discovery rounds *)

Section DatabaseLookups.

Lemma find_characteristic_loop_app (l1 l2 : list GattcCharacteristic.t) (u : Uuid) :
  GattcService.find_characteristic_loop (l1 ++ l2) u
  = match GattcService.find_characteristic_loop l1 u with
    | Some c => Some c
    | None => GattcService.find_characteristic_loop l2 u
    end.
Proof.
  induction l1 as [| c l1 IH]; cbn; [reflexivity |].
  destruct (uuid.eqb (GattcCharacteristic.uuid c) u); [reflexivity | exact IH].
Qed.

Lemma find_service_loop_app (l1 l2 : list GattcService.t) (u : Uuid) :
  GattcDatabase.find_service_loop (l1 ++ l2) u
  = match GattcDatabase.find_service_loop l1 u with
    | Some s => Some s
    | None => GattcDatabase.find_service_loop l2 u
    end.
Proof.
  induction l1 as [| s l1 IH]; cbn; [reflexivity |].
  destruct (uuid.eqb (GattcService.uuid s) u); [reflexivity | exact IH].
Qed.

Lemma find_characteristic_across_services (ss : list GattcService.t) (u : Uuid) :
  GattcService.find_characteristic_loop
    (flat_map GattcService.characteristics ss) u
  = first_some (fun s => GattcService.find_characteristic s u) ss.
Proof.
  induction ss as [| s ss IH]; cbn [flat_map first_some]; [reflexivity |].
  rewrite find_characteristic_loop_app, IH. reflexivity.
Qed.

Lemma uuid_eqb_right (x u u' : Uuid) :
  uuid.eqb u u' = true -> uuid.eqb x u = uuid.eqb x u'.
Proof.
  unfold uuid.eqb. intros H. apply N.eqb_eq in H. rewrite H. reflexivity.
Qed.

Lemma first_some_app {X Y : Type} (f : X -> option Y) (l1 l2 : list X) :
  first_some f (l1 ++ l2)
  = match first_some f l1 with
    | Some y => Some y
    | None => first_some f l2
    end.
Proof.
  induction l1 as [| x l1 IH]; cbn; [reflexivity |].
  destruct (f x); [reflexivity | exact IH].
Qed.

Lemma find_same_test {X : Type} (f g : X -> bool) (l : list X) :
  (forall x, f x = g x) -> find f l = find g l.
Proof.
  intros Hfg. induction l as [| x l IH]; cbn; [reflexivity |].
  rewrite Hfg, IH. reflexivity.
Qed.
End DatabaseLookups.

(** X8: the database's [find_characteristic] goes through the services in
    order and returns what the first service that has a characteristic with
    that UUID returns from its own [find_characteristic]. *)
Theorem X8_database_lookup_is_first_service_that_finds :
  forall (db : GattcDatabase.t) (u : Uuid),
    GattcDatabase.find_characteristic db u
    = first_some (fun s => GattcService.find_characteristic s u)
                 (GattcDatabase.services db).
Proof.
  intros db u. unfold GattcDatabase.find_characteristic,
    GattcDatabase.iter_characteristics.
  apply find_characteristic_across_services.
Qed.

(** X9: [add_discovered_services] appends, in the order discovered, one
    primary service per discovered service, with its UUID and handle range
    and one characteristic per discovered characteristic; nothing is removed
    or merged.  A lookup that found a service or characteristic before still
    returns the same one; only lookups that found nothing reach the added
    services. *)
Theorem X9_added_services_never_shadow_existing_ones :
  forall (db : GattcDatabase.t) (nrf_services : list GattcService.BLEGattService)
         (u : Uuid),
    let db' := GattcDatabase.add_discovered_services db nrf_services in
    let added := map (GattcService.from_discovered_service
                        (GattcDatabase.peer_conn_handle db)) nrf_services in
    GattcDatabase.services db' = GattcDatabase.services db ++ added
    /\ map GattcService.uuid added = map GattcService.nrf_uuid nrf_services
    /\ Forall (fun s => GattcService.service_type s = PRIMARY) added
    /\ Forall2 (fun s n =>
                  GattcService.start_handle s = GattcService.nrf_start_handle n
                  /\ GattcService.end_handle s = GattcService.nrf_end_handle n
                  /\ map GattcCharacteristic.uuid (GattcService.characteristics s)
                     = map GattcCharacteristic.nrf_uuid (GattcService.chars n))
               added nrf_services
    /\ GattcDatabase.find_service db' u
       = match GattcDatabase.find_service db u with
         | Some s => Some s
         | None => GattcDatabase.find_service_loop added u
         end
    /\ GattcDatabase.find_characteristic db' u
       = match GattcDatabase.find_characteristic db u with
         | Some c => Some c
         | None => first_some (fun s => GattcService.find_characteristic s u) added
         end.
Proof.
  intros db nrf_services u db' added. subst db' added.
  conjuncts.
  - reflexivity.
  - rewrite map_map. reflexivity.
  - apply Forall_forall. intros s Hin. apply in_map_iff in Hin as (n & <- & _).
    reflexivity.
  - induction nrf_services as [| n l IH]; cbn [map]; constructor; [| exact IH].
    conjuncts; try reflexivity.
    cbn. rewrite map_map.
    apply map_ext. intros a.
    unfold GattcCharacteristic.from_discovered_characteristic.
    destruct (GattcCharacteristic.decl_attr _), (GattcCharacteristic.value_attr _);
      reflexivity.
  - unfold GattcDatabase.find_service.
    cbn [GattcDatabase.add_discovered_services GattcDatabase.services].
    apply find_service_loop_app.
  - unfold GattcDatabase.find_characteristic, GattcDatabase.iter_characteristics.
    rewrite !find_characteristic_across_services.
    cbn [GattcDatabase.add_discovered_services GattcDatabase.services].
    apply first_some_app.
Qed.

(** X10: discovery in rounds gives the database that one round with all the
    services gives, and an empty round changes nothing. *)
Theorem X10_discovery_rounds_compose :
  forall (db : GattcDatabase.t) (first second : list GattcService.BLEGattService),
    GattcDatabase.add_discovered_services
      (GattcDatabase.add_discovered_services db first) second
    = GattcDatabase.add_discovered_services db (first ++ second)
    /\ GattcDatabase.services (GattcDatabase.add_discovered_services db [])
       = GattcDatabase.services db.
Proof.
  intros db first second. split.
  - unfold GattcDatabase.add_discovered_services.
    cbn [GattcDatabase.peer_conn_handle GattcDatabase.services].
    rewrite map_app, app_assoc. reflexivity.
  - cbn. apply app_nil_r.
Qed.

(** X11: the four lookups do not tell equal UUIDs apart: asked for either of
    two UUIDs that compare equal they return the same result. *)
Theorem X11_lookups_agree_on_equal_uuids :
  forall (db : GattcDatabase.t) (s : GattcService.t) (c : GattcCharacteristic.t)
         (u u' : Uuid),
    uuid.eqb u u' = true ->
    GattcDatabase.find_service db u = GattcDatabase.find_service db u'
    /\ GattcDatabase.find_characteristic db u
       = GattcDatabase.find_characteristic db u'
    /\ GattcService.find_characteristic s u = GattcService.find_characteristic s u'
    /\ GattcCharacteristic.find_descriptor c u
       = GattcCharacteristic.find_descriptor c u'.
Proof.
  intros db s c u u' Heq.
  unfold GattcDatabase.find_service, GattcDatabase.find_characteristic,
    GattcService.find_characteristic, GattcCharacteristic.find_descriptor.
  rewrite !find_service_loop_find, !find_characteristic_loop_find,
    !find_descriptor_loop_find.
  conjuncts; apply find_same_test; intros x; apply uuid_eqb_right, Heq.
Qed.

(** X12: if every characteristic of a database is on the database's
    connection, not subscribed and without handlers, the same holds after
    [add_discovered_services]; in particular a database filled by discovery
    alone holds only such characteristics. *)
Theorem X12_discovery_keeps_characteristics_pristine :
  forall (db : GattcDatabase.t) (nrf_services : list GattcService.BLEGattService),
    Forall (pristine (GattcDatabase.peer_conn_handle db))
           (GattcDatabase.iter_characteristics db) ->
    let db' := GattcDatabase.add_discovered_services db nrf_services in
    GattcDatabase.peer_conn_handle db' = GattcDatabase.peer_conn_handle db
    /\ Forall (pristine (GattcDatabase.peer_conn_handle db'))
              (GattcDatabase.iter_characteristics db').
Proof.
  intros db nrf_services Hdb db'. subst db'. split; [reflexivity |].
  unfold GattcDatabase.iter_characteristics in *.
  cbn [GattcDatabase.add_discovered_services GattcDatabase.services
       GattcDatabase.peer_conn_handle].
  rewrite flat_map_app. apply Forall_app. split; [exact Hdb |].
  apply Forall_forall. intros c Hin.
  apply in_flat_map in Hin as (s & Hs & Hc).
  apply in_map_iff in Hs as (n & <- & _).
  cbn [GattcService.from_discovered_service GattcService.characteristics] in Hc.
  apply in_map_iff in Hc as (a & <- & _).
  rewrite from_discovered_characteristic_eq. repeat split.
Qed.

(** ** The subscription state machine, end to end *)

Ltac case_step c s :=
  rewrite (step_equation c s); destruct s;
  rewrite ?subscribe_eq, ?unsubscribe_eq, ?read_eq, ?write_eq,
    ?write_without_response_eq, ?on_indication_notification_eq,
    ?cccd_write_complete_eq;
  repeat match goal with
         | |- context [if ?b then _ else _] => destruct b eqn:?
         | |- context [match ?o with Some _ => _ | None => _ end] => destruct o eqn:?
         | |- context [match ?r with Return _ => _ | Raise _ => _ end] =>
             destruct r eqn:?
         end;
  cbn.

Section StateMachine.
Import GattcCharacteristic.

Lemma confirmed_app (t1 t2 : list Call) :
  confirmed (t1 ++ t2) = confirmed t1 ++ confirmed t2.
Proof.
  induction t1 as [| k t1 IH]; [reflexivity |].
  destruct k; cbn; rewrite ?IH; reflexivity.
Qed.

Lemma confirmed_handler_calls (args : NotificationReceivedEventArgs)
    (l : list Handler) :
  confirmed (map (fun h => notification_handler h args) l) = [].
Proof.
  induction l as [| h l IH]; cbn; [| rewrite IH]; reflexivity.
Qed.

Lemma step_confirmed (c : GattcCharacteristic.t) (s : Stimulus) :
  confirmed (snd (step c s)) = confirmations_due c [s].
Proof.
  unfold confirmations_due. cbn [flat_map]. rewrite app_nil_r.
  rewrite (step_equation c s); destruct s; cbn [forget snd trace final_state];
    rewrite ?subscribe_eq, ?unsubscribe_eq, ?read_eq, ?write_eq,
      ?write_without_response_eq, ?on_indication_notification_eq,
      ?cccd_write_complete_eq.
  - destruct (subscribable c); [destruct (_cccd_attr c) |]; reflexivity.
  - destruct (subscribable c); [destruct (_cccd_attr c) |]; reflexivity.
  - destruct (readable c); reflexivity.
  - destruct (writable c); [destruct (to_bytes c data) |]; reflexivity.
  - destruct (writable_without_response c); [destruct (to_bytes c data) |];
      reflexivity.
  - destruct (addressed_to c event); [| reflexivity].
    cbn. rewrite confirmed_app, confirmed_handler_calls, app_nil_r.
    destruct (is_indication event); reflexivity.
  - destruct (nrf_types.is_success (wc_status args));
      [destruct (from_buffer (wc_value args)) |]; reflexivity.
  - reflexivity.
  - reflexivity.
Qed.

Lemma confirmations_due_same_identity (c c' : GattcCharacteristic.t)
    (ss : list Stimulus) :
  same_identity c c' -> confirmations_due c' ss = confirmations_due c ss.
Proof.
  intros Hid. unfold confirmations_due. apply flat_map_ext. intros s.
  destruct s; try reflexivity.
  rewrite (addressed_to_same_identity event Hid). reflexivity.
Qed.

Lemma step_value (c : GattcCharacteristic.t) (s : Stimulus) :
  value (fst (step c s)) =
  match s with
  | on_hvx e => if addressed_to c e then nrf_events.data e else value c
  | _ => value c
  end.
Proof.
  case_step c s; reflexivity.
Qed.

Lemma find_snoc {X : Type} (hit : X -> bool) (l : list X) (x : X) :
  find hit (l ++ [x])
  = match find hit l with
    | Some y => Some y
    | None => if hit x then Some x else None
    end.
Proof.
  induction l as [| y l IH]; cbn; [reflexivity |].
  destruct (hit y); [reflexivity | exact IH].
Qed.
End StateMachine.

(** X13: when the CCCD write-complete handler returns, it has told the
    listeners of the CCCD write-complete event once, passing on the write's
    id, status and reason together with the subscription state the
    characteristic is left in; for a status other than success that is the
    state it had before.  It touches neither the handlers nor the cached
    value. *)
Theorem X13_cccd_completion_reports_resulting_state :
  forall (c : GattcCharacteristic.t) (a : WriteCompleteEventArgs),
    let o := GattcCharacteristic._cccd_write_complete a c in
    result o = Return tt ->
    trace o = [cccd_write_complete_notify
                 (Build_SubscriptionWriteCompleteEventArgs
                    (wc_id a)
                    (GattcCharacteristic.cccd_state (final_state o))
                    (wc_status a) (wc_reason a))]
    /\ (wc_status a <> nrf_types.success ->
        GattcCharacteristic.cccd_state (final_state o)
        = GattcCharacteristic.cccd_state c)
    /\ GattcCharacteristic._on_notification_event (final_state o)
       = GattcCharacteristic._on_notification_event c
    /\ GattcCharacteristic.value (final_state o) = GattcCharacteristic.value c.
Proof.
  intros c a o Hret. subst o. rewrite cccd_write_complete_eq in *.
  destruct (wc_status a) eqn:Hst; cbn [nrf_types.is_success] in *.
  - destruct (from_buffer (wc_value a)); [| discriminate Hret].
    conjuncts; try reflexivity. intros H. contradiction H. reflexivity.
  - conjuncts; reflexivity.
Qed.

(** X14: on a subscribable characteristic with a CCCD, completing with
    success the write [subscribe] issued makes the characteristic subscribed;
    [unsubscribe] then clears the handlers at once, but the characteristic
    still reports subscribed until the write [unsubscribe] issued completes
    with success, which makes it not subscribed. *)
Theorem X14_subscribe_and_unsubscribe_round_trip :
  forall (c : GattcCharacteristic.t) (h : Handler) (p : bool)
         (cccd : GattcAttribute.t) (id1 id2 : nat) (r1 r2 : N),
    GattcCharacteristic.subscribable c = true ->
    GattcCharacteristic._cccd_attr c = Some cccd ->
    exists d1 d2,
      let c1 := final_state (GattcCharacteristic.subscribe h p c) in
      let c2 := final_state
                  (GattcCharacteristic._cccd_write_complete
                     (Build_WriteCompleteEventArgs id1 d1 nrf_types.success r1) c1) in
      let c3 := final_state (GattcCharacteristic.unsubscribe c2) in
      let c4 := final_state
                  (GattcCharacteristic._cccd_write_complete
                     (Build_WriteCompleteEventArgs id2 d2 nrf_types.success r2) c3) in
      writes (trace (GattcCharacteristic.subscribe h p c))
      = [(GattcAttribute.handle cccd, d1, None)]
      /\ GattcCharacteristic.subscribed c1 = GattcCharacteristic.subscribed c
      /\ GattcCharacteristic.subscribed c2 = true
      /\ writes (trace (GattcCharacteristic.unsubscribe c2))
         = [(GattcAttribute.handle cccd, d2, None)]
      /\ GattcCharacteristic._on_notification_event c3 = []
      /\ GattcCharacteristic.subscribed c3 = true
      /\ GattcCharacteristic.subscribed c4 = false.
Proof.
  intros c h p cccd id1 id2 r1 r2 Hsub Hcccd.
  rewrite subscribe_eq, Hsub, Hcccd. cbv zeta.
  set (v := if p && CharacteristicProperties.indicate
                      (GattcCharacteristic._properties c)
               || negb (CharacteristicProperties.notify
                          (GattcCharacteristic._properties c))
            then INDICATION else NOTIFY).
  exists (to_buffer v), (to_buffer NOT_SUBSCRIBED).
  assert (Hv : v = INDICATION \/ v = NOTIFY).
  { subst v. destruct (_ || _); auto. }
  rewrite !cccd_write_complete_eq. cbn [wc_status wc_value nrf_types.is_success].
  assert (Hrt : from_buffer (to_buffer v) = Some v) by (destruct v; reflexivity).
  rewrite Hrt. cbn [final_state trace fst snd].
  rewrite unsubscribe_eq.
  unfold GattcCharacteristic.subscribable in *. cbn. rewrite Hsub, Hcccd. cbn.
  conjuncts; try reflexivity;
    unfold GattcCharacteristic.subscribed; cbn;
    destruct Hv as [-> | ->]; reflexivity.
Qed.

(** X15: a method that raises leaves the characteristic as it found it and
    has called nothing, with one exception: [subscribe] on a subscribable
    characteristic without a CCCD attribute raises AttributeError after it
    has registered the handler.  [read] raises nothing but
    InvalidOperationException; [write] and [write_without_response] raise
    InvalidOperationException or, for a [str] the string encoding fails on,
    the encoding's error. *)
Theorem X15_methods_that_raise_change_nothing :
  forall (c : GattcCharacteristic.t) (h : Handler) (p : bool) (data : PyData)
         (e : Exception),
    (result (GattcCharacteristic.subscribe h p c) = Raise e ->
     (e = InvalidOperationException
      /\ GattcCharacteristic.subscribable c = false
      /\ final_state (GattcCharacteristic.subscribe h p c) = c
      /\ trace (GattcCharacteristic.subscribe h p c) = [])
     \/ (e = AttributeError
         /\ GattcCharacteristic._cccd_attr c = None
         /\ GattcCharacteristic._on_notification_event
              (final_state (GattcCharacteristic.subscribe h p c))
            = GattcCharacteristic._on_notification_event c ++ [h]
         /\ trace (GattcCharacteristic.subscribe h p c) = [register_handler h]))
    /\ (result (GattcCharacteristic.unsubscribe c) = Raise e ->
        final_state (GattcCharacteristic.unsubscribe c) = c
        /\ trace (GattcCharacteristic.unsubscribe c) = [])
    /\ (result (GattcCharacteristic.read c) = Raise e ->
        e = InvalidOperationException
        /\ final_state (GattcCharacteristic.read c) = c
        /\ trace (GattcCharacteristic.read c) = [])
    /\ (result (GattcCharacteristic.write data c) = Raise e ->
        final_state (GattcCharacteristic.write data c) = c
        /\ trace (GattcCharacteristic.write data c) = []
        /\ ((e = InvalidOperationException
             /\ GattcCharacteristic.writable c = false)
            \/ (GattcCharacteristic.writable c = true
                /\ exists s ce,
                     data = PyStr s
                     /\ GattcCharacteristic.string_encoding c s = inl ce
                     /\ e = codec_exception ce)))
    /\ (result (GattcCharacteristic.write_without_response data c) = Raise e ->
        final_state (GattcCharacteristic.write_without_response data c) = c
        /\ trace (GattcCharacteristic.write_without_response data c) = []
        /\ ((e = InvalidOperationException
             /\ GattcCharacteristic.writable_without_response c = false)
            \/ (GattcCharacteristic.writable_without_response c = true
                /\ exists s ce,
                     data = PyStr s
                     /\ GattcCharacteristic.string_encoding c s = inl ce
                     /\ e = codec_exception ce))).
Proof.
  intros c h p data e.
  assert (Hdata : forall e0, GattcCharacteristic.to_bytes c data = Raise e0 ->
                    exists s ce,
                      data = PyStr s
                      /\ GattcCharacteristic.string_encoding c s = inl ce
                      /\ e0 = codec_exception ce).
  { intros e0 He. unfold GattcCharacteristic.to_bytes in He.
    destruct data as [s | b]; [| discriminate He].
    destruct (GattcAttribute.string_encoding
                (GattcCharacteristic._value_attr c) s) as [ce | b] eqn:Hc;
      [| discriminate He].
    injection He as <-. exists s, ce. repeat split. exact Hc. }
  rewrite subscribe_eq, unsubscribe_eq, read_eq, write_eq,
    write_without_response_eq. cbv zeta.
  conjuncts.
  - destruct (GattcCharacteristic.subscribable c);
      [destruct (GattcCharacteristic._cccd_attr c) |]; cbn; intros H;
      try discriminate H; injection H as <-.
    + right. repeat split.
    + left. repeat split.
  - destruct (GattcCharacteristic.subscribable c);
      [destruct (GattcCharacteristic._cccd_attr c) |]; cbn; intros H;
      try discriminate H; split; reflexivity.
  - destruct (GattcCharacteristic.readable c); cbn; intros H;
      try discriminate H; injection H as <-; repeat split.
  - destruct (GattcCharacteristic.writable c).
    + destruct (GattcCharacteristic.to_bytes c data) as [b | e0] eqn:He; cbn;
        intros H; [discriminate H |]. injection H as <-.
      conjuncts; try reflexivity. right. split; [reflexivity |].
      apply Hdata. reflexivity.
    + cbn. intros H. injection H as <-. conjuncts; try reflexivity.
      left. split; reflexivity.
  - destruct (GattcCharacteristic.writable_without_response c).
    + destruct (GattcCharacteristic.to_bytes c data) as [b | e0] eqn:He; cbn;
        intros H; [discriminate H |]. injection H as <-.
      conjuncts; try reflexivity. right. split; [reflexivity |].
      apply Hdata. reflexivity.
    + cbn. intros H. injection H as <-. conjuncts; try reflexivity.
      left. split; reflexivity.
Qed.

(** X16: over any sequence of method calls and events, the confirmations
    sent to the driver are exactly one per indication addressed to the
    characteristic, in order of arrival and with the event's handles, whether
    or not anything is subscribed; nothing else is ever confirmed. *)
Theorem X16_every_addressed_indication_is_confirmed_once :
  forall (c : GattcCharacteristic.t) (ss : list Stimulus),
    confirmed (snd (run c ss)) = confirmations_due c ss.
Proof.
  intros c ss. revert c. induction ss as [| s ss IH]; intro c; [reflexivity |].
  cbn [run].
  pose proof (step_confirmed c s) as Hs.
  pose proof (step_same_identity c s) as Hid.
  destruct (step c s) as [c1 t1]. cbn [fst snd] in Hs, Hid.
  specialize (IH c1). destruct (run c1 ss) as [c2 t2]. cbn [snd] in *.
  rewrite confirmed_app, Hs, IH, (confirmations_due_same_identity ss Hid).
  unfold confirmations_due. cbn [flat_map]. rewrite app_nil_r. reflexivity.
Qed.

(** X17: after a sequence of received value events, the cached value is the
    data of the last event that was addressed to the characteristic, or the
    value it had if none was. *)
Theorem X17_cached_value_is_last_addressed_event :
  forall (c : GattcCharacteristic.t) (events : list nrf_events.GattcEvtHvx),
    GattcCharacteristic.value (fst (run c (map on_hvx events)))
    = match last_match (addressed_to c) events with
      | Some e => nrf_events.data e
      | None => GattcCharacteristic.value c
      end.
Proof.
  intros c events. revert c.
  induction events as [| e events IH]; intro c; [reflexivity |].
  cbn [map run].
  pose proof (step_value c (on_hvx e)) as Hv.
  pose proof (step_same_identity c (on_hvx e)) as Hid.
  destruct (step c (on_hvx e)) as [c1 t1]. cbn [fst] in Hv, Hid.
  specialize (IH c1). destruct (run c1 (map on_hvx events)) as [c2 t2].
  cbn [fst] in *. rewrite IH.
  unfold last_match. cbn [rev]. rewrite find_snoc.
  rewrite (find_same_test (addressed_to c1) (addressed_to c) (rev events)
             (fun x => addressed_to_same_identity x Hid)).
  destruct (find (addressed_to c) (rev events)); [reflexivity |].
  rewrite Hv. destruct (addressed_to c e); reflexivity.
Qed.



(** ** The description loop of bt_sig.uuids *)

(** X20: the loop that fills in descriptions keeps every constant under its
    name, in place, with its numeric value; a constant that had a
    description keeps it, one that had none gets the words made from its
    name; and going over the result again changes nothing. *)
Theorem X20_description_loop_fills_only_missing_descriptions :
  forall (words : string -> string) (ns : list (string * Uuid)),
    map fst (bt_sig.loaded words ns) = map fst ns
    /\ map (fun kv => uuid.normalized (snd kv)) (bt_sig.loaded words ns)
       = map (fun kv => uuid.normalized (snd kv)) ns
    /\ map (fun kv => uuid.description (snd kv)) (bt_sig.loaded words ns)
       = map (fun kv => if String.eqb (uuid.description (snd kv)) ""
                        then words (fst kv)
                        else uuid.description (snd kv)) ns
    /\ bt_sig.loaded words (bt_sig.loaded words ns) = bt_sig.loaded words ns.
Proof.
  intros words ns. unfold bt_sig.loaded. rewrite !map_map. cbn [fst snd].
  conjuncts.
  - apply map_ext. intros [k v]. reflexivity.
  - apply map_ext. intros [k v]. apply described_normalized.
  - apply map_ext. intros [k v]. cbn [fst snd]. unfold bt_sig.described.
    destruct (String.eqb (uuid.description v) "") eqn:He; [| reflexivity].
    destruct v; reflexivity.
  - apply map_ext. intros [k v]. cbn [fst snd]. f_equal.
    unfold bt_sig.described.
    destruct (String.eqb (uuid.description v) "") eqn:He.
    + destruct (String.eqb (uuid.description
                              (bt_sig.set_description v (words k))) "") eqn:He2;
        [| reflexivity].
      destruct v; reflexivity.
    + rewrite He. reflexivity.
Qed.

(** X21: on a subscribable characteristic with a CCCD, [prefer_indications]
    changes what [subscribe] does only when the characteristic supports both
    notifications and indications. *)
Theorem X21_preference_matters_only_with_both_capabilities :
  forall (c : GattcCharacteristic.t) (h : Handler) (cccd : GattcAttribute.t),
    GattcCharacteristic.subscribable c = true ->
    GattcCharacteristic._cccd_attr c = Some cccd ->
    (trace (GattcCharacteristic.subscribe h true c)
     = trace (GattcCharacteristic.subscribe h false c)
     <-> CharacteristicProperties.notify (GattcCharacteristic._properties c)
         && CharacteristicProperties.indicate (GattcCharacteristic._properties c)
         = false).
Proof.
  intros c h cccd Hsub Hcccd. rewrite !subscribe_eq, Hsub, Hcccd. cbv zeta.
  unfold GattcCharacteristic.subscribable in Hsub.
  destruct (CharacteristicProperties.notify (GattcCharacteristic._properties c)),
    (CharacteristicProperties.indicate (GattcCharacteristic._properties c));
    cbn in *; split; intros H; try reflexivity; discriminate.
Qed.

(** ** The further properties at the battery-level characteristic *)

Section FurtherWitnesses.
Import GattcCharacteristic.
Import Examples.


Lemma X7_witness : _cccd_attr battery_level_no_cccd = None.
Proof.
  destruct (X7_no_cccd_descriptor_no_cccd_attribute
              conn nrf_battery_level_no_cccd handler false)
    as [[_ Hnone] _]; [vm_compute; reflexivity |].
  apply Hnone. repeat constructor.
Defined.

Lemma X11_witness :
  find_descriptor battery_level DescriptorUuid.cccd
  = find_descriptor battery_level
      (uuid.Uuid128 0x0000290200001000800000805F9B34FB "").
Proof.
  apply (X11_lookups_agree_on_equal_uuids database
           (GattcService.Build ServiceUuid.battery_service PRIMARY 9 12 [])
           battery_level).
  vm_compute. reflexivity.
Defined.

Lemma X12_witness :
  Forall (pristine conn) (GattcDatabase.iter_characteristics database).
Proof.
  apply (X12_discovery_keeps_characteristics_pristine
           (GattcDatabase.Build conn []) [nrf_battery_service]).
  constructor.
Defined.

Lemma X13_witness :
  trace (_cccd_write_complete
           (Build_WriteCompleteEventArgs 4 [x01; x00] (nrf_types.failure 0x0103) 8)
           battery_level)
  = [cccd_write_complete_notify
       (Build_SubscriptionWriteCompleteEventArgs
          4 NOT_SUBSCRIBED (nrf_types.failure 0x0103) 8)].
Proof.
  apply (X13_cccd_completion_reports_resulting_state
           battery_level
           (Build_WriteCompleteEventArgs 4 [x01; x00] (nrf_types.failure 0x0103) 8)).
  vm_compute. reflexivity.
Defined.

Lemma X14_witness :
  exists d1 d2,
    writes (trace (subscribe handler false battery_level)) = [(12%N, d1, None)]
    /\ writes (trace (unsubscribe
                        (final_state
                           (_cccd_write_complete
                              (Build_WriteCompleteEventArgs 0 d1 nrf_types.success 0)
                              (final_state (subscribe handler false battery_level))))))
       = [(12%N, d2, None)].
Proof.
  destruct (X14_subscribe_and_unsubscribe_round_trip
              battery_level handler false (cccd := cccd_attribute) 0 1 0 0)
    as (d1 & d2 & Hw1 & _ & _ & Hw2 & _);
    [vm_compute; reflexivity | vm_compute; reflexivity |].
  exists d1, d2. split; [exact Hw1 | exact Hw2].
Defined.

Lemma X21_witness :
  trace (subscribe handler true battery_level)
  = trace (subscribe handler false battery_level).
Proof.
  apply (X21_preference_matters_only_with_both_capabilities
           battery_level handler (cccd := cccd_attribute));
    vm_compute; reflexivity.
Defined.
End FurtherWitnesses.
